(** * BinaryInfo: the per-object analysis lifecycle of BinaryAlert

    A shallow embedding of [lambda_functions/analyzer/binary_info.py].

    - Python values that end up in the summary dictionary are embedded in
      [pyval]; a [dict] is an association list in insertion order.
    - A Python [str] is a Rocq [string] holding its UTF-8 bytes; comparing
      such strings byte by byte is the code-point order Python uses.
    - A Python [set] is a [gset]; the order in which Python iterates over
      it is not specified, so every use of that order goes through an
      explicit enumeration function.
    - Methods that touch the outside world ([__enter__], [__exit__],
      [save_matches_and_alert]) run in a state-and-exception monad over
      the object, the world and a trace of the calls that were made. *)

From stdpp Require Import base option list gmap sets strings pretty sorting.
From Stdlib Require Import ZArith Ascii.

Local Open Scope string_scope.
Local Open Scope Z_scope.
Local Open Scope list_scope.

(** ** Python values *)

#[warnings="-register-all"]
Inductive pyval :=
| PNone
| PBool (b : bool)
| PInt (z : Z)
| PStr (s : string)
| PList (l : list pyval)
| PDict (d : list (string * pyval)).

Definition PStrList (l : list string) : pyval := PList (PStr <$> l).

(** [None] or a string, as [computed_md5] and [computed_sha] are. *)
Definition POptStr (o : option string) : pyval :=
  match o with
  | None => PNone
  | Some s => PStr s
  end.

(** ** Dictionaries with string keys, in insertion order *)

Module Dict.

Definition t (V : Type) := list (string * V).

Definition keys {V} (d : t V) : list string := fst <$> d.

(** [d.get(k)]. *)
Fixpoint get {V} (k : string) (d : t V) : option V :=
  match d with
  | [] => None
  | (k', v) :: d' => if decide (k' = k) then Some v else get k d'
  end.

(** [d[k] = v]: an existing key keeps its position, a new key goes last. *)
Fixpoint set {V} (k : string) (v : V) (d : t V) : t V :=
  match d with
  | [] => [(k, v)]
  | (k', v') :: d' =>
      if decide (k' = k) then (k, v) :: d' else (k', v') :: set k v d'
  end.

(** [d.get(k, dflt)]. *)
Definition get_default {V} (k : string) (dflt : V) (d : t V) : V :=
  default dflt (get k d).

End Dict.

Definition PStrDict (d : Dict.t string) : pyval :=
  PDict (prod_map id PStr <$> d).

(** ** Builtins *)

(** [enumerate(l, start)]. *)
Fixpoint enumerate {A} (start : Z) (l : list A) : list (Z * A) :=
  match l with
  | [] => []
  | x :: l' => (start, x) :: enumerate (start + 1) l'
  end.

(** [sorted] on a list of strings. *)
Definition sorted (l : list string) : list string := merge_sort String.le l.

(** [os.path.join(a, b)] on POSIX. *)
Definition starts_with_slash (s : string) : bool :=
  match s with
  | String "/"%char _ => true
  | _ => false
  end.

Fixpoint ends_with_slash (s : string) : bool :=
  match s with
  | "" => false
  | String c "" => bool_decide (c = "/"%char)
  | String _ s' => ends_with_slash s'
  end.

Definition os_path_join (a b : string) : string :=
  if starts_with_slash b then b
  else if bool_decide (a = "") || ends_with_slash a then a +:+ b
  else a +:+ "/" +:+ b.

(** ** yara.Match *)

(** One element of [match.strings]: [(offset, identifier, data)]. *)
Definition yara_string : Type := Z * string * string.

(** [t[1]]. *)
Definition item1 (t : yara_string) : string := t.1.2.

Record YaraMatch := {
  rule : string;
  namespace : string;
  tags : list string;
  meta : Dict.t pyval;
  strings : list yara_string
}.

(** ** The world outside the object *)

(** Exceptions, by the class the caller would catch. *)
Inductive exc :=
| OSError (kind : string) (path : string)
| ClientError (msg : string)
| YaraError (msg : string)
| OtherError (msg : string).

Definition Result (A : Type) : Type := exc + A.

(** The local file system: what is at each path, and the paths on which
    opening for writing, respectively unlinking, is refused.  A path names
    its own entry: links are not modelled, and nothing is stated here about
    paths other than the one a call is made on. *)
Inductive node :=
| File (content : string)
| Dir.

Record FS := {
  nodes : gmap string node;
  wr_denied : gset string;
  rm_denied : gset string
}.

(** The file system and the state of the remote services (S3, Dynamo, SNS). *)
Record World := {
  fs : FS;
  remote : gmap string pyval
}.

Definition set_fs (f : FS) (w : World) : World :=
  {| fs := f; remote := remote w |}.

Definition set_nodes (n : gmap string node) (f : FS) : FS :=
  {| nodes := n; wr_denied := wr_denied f; rm_denied := rm_denied f |}.

(** An external call: it may raise, and it may change the world. *)
Definition Ext (A : Type) : Type := World → Result A * World.

(** [yara_analyzer.YaraAnalyzer], an object with one method. *)
Record YaraAnalyzer := {
  analyze : string → string → Ext (list YaraMatch)
}.

(** ** BinaryInfo *)

Record BinaryInfo := {
  bucket_name : string;
  object_key : string;
  s3_identifier : string;
  download_path : string;
  yara_analyzer : YaraAnalyzer;
  download_time_ms : Z;
  s3_last_modified : string;
  s3_metadata : Dict.t string;
  computed_md5 : option string;
  computed_sha : option string;
  yara_matches : list YaraMatch
}.

Definition set_download (lm : string) (md : Dict.t string) (b : BinaryInfo) : BinaryInfo :=
  {| bucket_name := bucket_name b; object_key := object_key b;
     s3_identifier := s3_identifier b; download_path := download_path b;
     yara_analyzer := yara_analyzer b; download_time_ms := download_time_ms b;
     s3_last_modified := lm; s3_metadata := md;
     computed_md5 := computed_md5 b; computed_sha := computed_sha b;
     yara_matches := yara_matches b |}.

Definition set_download_time_ms (t : Z) (b : BinaryInfo) : BinaryInfo :=
  {| bucket_name := bucket_name b; object_key := object_key b;
     s3_identifier := s3_identifier b; download_path := download_path b;
     yara_analyzer := yara_analyzer b; download_time_ms := t;
     s3_last_modified := s3_last_modified b; s3_metadata := s3_metadata b;
     computed_md5 := computed_md5 b; computed_sha := computed_sha b;
     yara_matches := yara_matches b |}.

Definition set_hashes (sha md5 : string) (b : BinaryInfo) : BinaryInfo :=
  {| bucket_name := bucket_name b; object_key := object_key b;
     s3_identifier := s3_identifier b; download_path := download_path b;
     yara_analyzer := yara_analyzer b; download_time_ms := download_time_ms b;
     s3_last_modified := s3_last_modified b; s3_metadata := s3_metadata b;
     computed_md5 := Some md5; computed_sha := Some sha;
     yara_matches := yara_matches b |}.

Definition set_yara_matches (ms : list YaraMatch) (b : BinaryInfo) : BinaryInfo :=
  {| bucket_name := bucket_name b; object_key := object_key b;
     s3_identifier := s3_identifier b; download_path := download_path b;
     yara_analyzer := yara_analyzer b; download_time_ms := download_time_ms b;
     s3_last_modified := s3_last_modified b; s3_metadata := s3_metadata b;
     computed_md5 := computed_md5 b; computed_sha := computed_sha b;
     yara_matches := ms |}.

(** [analyzer_aws_lib.DynamoMatchTable], an object with one method.  The
    collaborators are handed the BinaryInfo to read, not to change. *)
Record DynamoMatchTable := {
  save_matches : BinaryInfo → Z → Ext bool
}.

(** The modules [tempfile], [uuid], [time], [analyzer_aws_lib] and
    [file_hash], as far as this file calls them. *)
Record Services := {
  gettempdir : World → string;
  uuid4 : World → string * World;
  time_time : World → Z * World;
  download_from_s3 : string → string → string → Ext (string * Dict.t string);
  compute_hashes : string → Ext (string * string);
  DynamoMatchTable_new : string → Ext DynamoMatchTable;
  publish_alert_to_sns : BinaryInfo → string → Ext unit
}.

(** ** Pure methods *)

(** [__init__], given the scratch directory and the fresh uuid. *)
Definition init_fields (tmp uuid bucket key : string) (ya : YaraAnalyzer) : BinaryInfo :=
  {| bucket_name := bucket; object_key := key;
     s3_identifier := "S3:" +:+ bucket +:+ ":" +:+ key;
     download_path := os_path_join tmp ("binaryalert_" +:+ uuid);
     yara_analyzer := ya;
     download_time_ms := 0;
     s3_last_modified := "";
     s3_metadata := [];
     computed_md5 := None;
     computed_sha := None;
     yara_matches := [] |}.

Definition __init__ (svc : Services) (bucket key : string) (ya : YaraAnalyzer)
    (w : World) : BinaryInfo * World :=
  let tmp := gettempdir svc w in
  let '(uuid, w') := uuid4 svc w in
  (init_fields tmp uuid bucket key ya, w').

Definition __str__ (self : BinaryInfo) : string := s3_identifier self.

(** ['{}:{}'.format(match.namespace, match.rule)]. *)
Definition rule_id (m : YaraMatch) : string := namespace m +:+ ":" +:+ rule m.

Definition matched_rule_ids (self : BinaryInfo) : gset string :=
  list_to_set (rule_id <$> yara_matches self).

Definition filepath (self : BinaryInfo) : string :=
  Dict.get_default "filepath" "" (s3_metadata self).

(** ** summary *)

Section Summary.
(** The order in which Python hands out the elements of a set. *)
Variable set_iter : gset string → list string.

(** [list(sorted(set(t[1] for t in match.strings)))]. *)
Definition matched_strings (m : YaraMatch) : list string :=
  sorted (set_iter (list_to_set (item1 <$> strings m))).

Definition rule_block (m : YaraMatch) : pyval :=
  PDict [ ("MatchedStrings", PStrList (matched_strings m));
          ("Meta", PDict (meta m));
          ("RuleFile", PStr (namespace m));
          ("RuleName", PStr (rule m));
          ("RuleTags", PStrList (tags m)) ].

Definition rule_label (index : Z) : string := "Rule" +:+ pretty index.

(** The entry one iteration of the loop adds. *)
Definition labelled_block (im : Z * YaraMatch) : string * pyval :=
  (rule_label im.1, rule_block im.2).

(** The [for] loop, on the dictionary [result['MatchedRules']]. *)
Definition add_rule (d : Dict.t pyval) (im : Z * YaraMatch) : Dict.t pyval :=
  Dict.set (rule_label im.1) (rule_block im.2) d.

Definition file_info (self : BinaryInfo) : pyval :=
  PDict [ ("MD5", POptStr (computed_md5 self));
          ("S3LastModified", PStr (s3_last_modified self));
          ("S3Location", PStr (s3_identifier self));
          ("S3Metadata", PStrDict (s3_metadata self));
          ("SHA256", POptStr (computed_sha self)) ].

Definition summary (self : BinaryInfo) : pyval :=
  let matched_rules := fold_left add_rule (enumerate 1 (yara_matches self)) [] in
  PDict [ ("FileInfo", file_info self);
          ("MatchedRules", PDict matched_rules);
          ("NumMatchedRules", PInt (Z.of_nat (length (yara_matches self)))) ].
End Summary.

(** ** The calls a method makes, in the order it makes them *)

Inductive Event :=
| LogDebug (msg : string)
| LogInfo (msg : string)
| CallTime
| CallDownload (bucket key path : string)
| CallComputeHashes (path : string)
| CallAnalyze (path original_target_path : string)
| CallIsFile (path : string)
| CallOpenWB (path : string)
| CallTruncate (path : string)
| CallClose (path : string)
| CallRemove (path : string)
| CallDynamoMatchTable (name : string)
| CallSaveMatches (analyzer_version : Z)
| CallPublish (sns_topic_arn : string).

Global Instance Event_eq_dec : EqDecision Event.
Proof. solve_decision. Defined.

(** ** The monad of the effectful methods *)

Record State := {
  self : BinaryInfo;
  world : World;
  trace : list Event
}.

Definition M (A : Type) : Type := State → Result A * State.

Module Py.

Definition ret {A} (a : A) : M A := λ st, (inr a, st).

Definition bind {A B} (m : M A) (k : A → M B) : M B :=
  λ st, match m st with
        | (inl e, st') => (inl e, st')
        | (inr a, st') => k a st'
        end.

Definition raise {A} (e : exc) : M A := λ st, (inl e, st).

(** [try: body finally: cleanup]. *)
Definition finally {A} (body : M A) (cleanup : M unit) : M A :=
  λ st, match body st with
        | (inl e, st') =>
            match cleanup st' with
            | (inl e', st'') => (inl e', st'')
            | (inr _, st'') => (inl e, st'')
            end
        | (inr a, st') =>
            match cleanup st' with
            | (inl e', st'') => (inl e', st'')
            | (inr _, st'') => (inr a, st'')
            end
        end.

Definition get_self : M BinaryInfo := λ st, (inr (self st), st).

Definition modify_self (f : BinaryInfo → BinaryInfo) : M unit :=
  λ st, (inr tt, {| self := f (self st); world := world st; trace := trace st |}).

Definition emit (ev : Event) : M unit :=
  λ st, (inr tt, {| self := self st; world := world st; trace := trace st ++ [ev] |}).

(** An external call: it is recorded, then it runs on the world. *)
Definition call {A} (ev : Event) (f : Ext A) : M A :=
  λ st, let '(r, w) := f (world st) in
        (r, {| self := self st; world := w; trace := trace st ++ [ev] |}).

Definition call_total {A} (ev : Event) (f : World → A * World) : M A :=
  call ev (λ w, let '(a, w') := f w in (inr a, w')).

End Py.

Global Instance M_ret : MRet M := @Py.ret.
Global Instance M_bind : MBind M := λ A B k m, Py.bind m k.

(** ** The [os] calls of [__exit__] *)

Module Os.

Definition isfile (f : FS) (path : string) : bool :=
  match nodes f !! path with
  | Some (File _) => true
  | _ => false
  end.

(** [open(path, 'wb')]: the file is created or cut to length zero. *)
Definition open_wb (path : string) : Ext string :=
  λ w, if decide (path ∈ wr_denied (fs w)) then
         (inl (OSError "PermissionError" path), w)
       else match nodes (fs w) !! path with
            | Some Dir => (inl (OSError "IsADirectoryError" path), w)
            | _ => (inr path, set_fs (set_nodes (<[path := File ""]> (nodes (fs w))) (fs w)) w)
            end.

(** [file.truncate()] right after opening: the position is 0. *)
Definition truncate (file : string) : Ext unit :=
  λ w, match nodes (fs w) !! file with
       | Some (File _) =>
           (inr tt, set_fs (set_nodes (<[file := File ""]> (nodes (fs w))) (fs w)) w)
       | _ => (inr tt, w)
       end.

Definition close (file : string) : Ext unit := λ w, (inr tt, w).

(** [os.remove(path)]. *)
Definition remove (path : string) : Ext unit :=
  λ w, if decide (path ∈ rm_denied (fs w)) then
         (inl (OSError "PermissionError" path), w)
       else match nodes (fs w) !! path with
            | None => (inl (OSError "FileNotFoundError" path), w)
            | Some Dir => (inl (OSError "IsADirectoryError" path), w)
            | Some (File _) =>
                (inr tt, set_fs (set_nodes (delete path (nodes (fs w))) (fs w)) w)
            end.

End Os.

(** [os.path.exists(path)]. *)
Definition path_exists (w : World) (path : string) : bool :=
  bool_decide (is_Some (nodes (fs w) !! path)).

(** ** Effectful methods *)

Section Methods.
Variable svc : Services.

Definition _download_from_s3 : M unit :=
  self ← Py.get_self;
  Py.emit (LogDebug ("Downloading " +:+ object_key self +:+ " to " +:+ download_path self));;
  start_time ← Py.call_total CallTime (time_time svc);
  '(lm, md) ← Py.call (CallDownload (bucket_name self) (object_key self) (download_path self))
                (download_from_s3 svc (bucket_name self) (object_key self) (download_path self));
  Py.modify_self (set_download lm md);;
  now ← Py.call_total CallTime (time_time svc);
  Py.modify_self (set_download_time_ms ((now - start_time) * 1000)).

Definition __enter__ : M BinaryInfo :=
  _download_from_s3;;
  self ← Py.get_self;
  '(sha, md5) ← Py.call (CallComputeHashes (download_path self))
                  (compute_hashes svc (download_path self));
  Py.modify_self (set_hashes sha md5);;
  Py.emit (LogDebug "Running YARA analysis");;
  self ← Py.get_self;
  matches ← Py.call (CallAnalyze (download_path self) (filepath self))
              (analyze (yara_analyzer self) (download_path self) (filepath self));
  Py.modify_self (set_yara_matches matches);;
  Py.get_self.

(** The three arguments describe the exception in flight, if any. *)
Definition __exit__ (in_flight : option exc) : M unit :=
  self ← Py.get_self;
  is_file ← Py.call (CallIsFile (download_path self))
              (λ w, (inr (Os.isfile (fs w) (download_path self)), w));
  if is_file : bool then
    file ← Py.call (CallOpenWB (download_path self)) (Os.open_wb (download_path self));
    Py.finally (Py.call (CallTruncate file) (Os.truncate file))
               (Py.call (CallClose file) (Os.close file));;
    Py.call (CallRemove (download_path self)) (Os.remove (download_path self))
  else Py.ret tt.

Definition save_matches_and_alert (analyzer_version : Z)
    (dynamo_table_name sns_topic_arn : string) : M unit :=
  self ← Py.get_self;
  table ← Py.call (CallDynamoMatchTable dynamo_table_name)
            (DynamoMatchTable_new svc dynamo_table_name);
  needs_alert ← Py.call (CallSaveMatches analyzer_version)
                  (save_matches table self analyzer_version);
  if needs_alert : bool then
    Py.emit (LogInfo "Publishing an SNS alert");;
    self ← Py.get_self;
    Py.call (CallPublish sns_topic_arn) (publish_alert_to_sns svc self sns_topic_arn)
  else Py.ret tt.
End Methods.

(** ** Reading results *)

(** [v[k]] on a dictionary value; [None] stands for a KeyError or TypeError. *)
Definition py_get (k : string) (v : pyval) : option pyval :=
  match v with
  | PDict d => Dict.get k d
  | _ => None
  end.

(** [v[k1][k2]...]. *)
Fixpoint py_path (ks : list string) (v : pyval) : option pyval :=
  match ks with
  | [] => Some v
  | k :: ks' =>
      match py_get k v with
      | Some v' => py_path ks' v'
      | None => None
      end
  end.

(** [list(v.keys())]. *)
Definition py_keys (v : pyval) : option (list string) :=
  match v with
  | PDict d => Some (Dict.keys d)
  | _ => None
  end.

(** The labels ["Rule1"; ...; "Rulen"]. *)
Definition rule_labels (n : nat) : list string :=
  (λ i : nat, rule_label (Z.of_nat (S i))) <$> seq 0 n.

(** What a method run added to the trace. *)
Definition events {A} (m : M A) (st : State) : list Event :=
  drop (length (trace st)) (trace (m st).2).

Definition is_log (ev : Event) : bool :=
  match ev with
  | LogDebug _ | LogInfo _ => true
  | _ => false
  end.

Definition is_publish (ev : Event) : bool :=
  match ev with
  | CallPublish _ => true
  | _ => false
  end.

Definition is_analyze (ev : Event) : bool :=
  match ev with
  | CallAnalyze _ _ => true
  | _ => false
  end.

Definition is_compute_hashes (ev : Event) : bool :=
  match ev with
  | CallComputeHashes _ => true
  | _ => false
  end.

(** Two match records that differ at most in the order and the repetition
    of their matched-string identifiers. *)
Definition same_match (m1 m2 : YaraMatch) : Prop :=
  rule m1 = rule m2 ∧ namespace m1 = namespace m2 ∧
  tags m1 = tags m2 ∧ meta m1 = meta m2 ∧
  list_to_set (item1 <$> strings m1) =@{gset string} list_to_set (item1 <$> strings m2).

Definition same_record (b1 b2 : BinaryInfo) : Prop :=
  s3_identifier b1 = s3_identifier b2 ∧
  s3_last_modified b1 = s3_last_modified b2 ∧
  s3_metadata b1 = s3_metadata b2 ∧
  computed_md5 b1 = computed_md5 b2 ∧
  computed_sha b1 = computed_sha b2 ∧
  Forall2 same_match (yara_matches b1) (yara_matches b2).

(** Python hands out every element of a set exactly once. *)
Definition set_iter_ok (set_iter : gset string → list string) : Prop :=
  ∀ X, set_iter X ≡ₚ elements X.

(** The (namespace, rule name) pair of a match, and the distinct pairs of a
    record in order of first appearance. *)
Definition rule_pair (m : YaraMatch) : string * string := (namespace m, rule m).

Definition pair_id (p : string * string) : string := p.1 +:+ ":" +:+ p.2.

Definition distinct_pairs (self : BinaryInfo) : list (string * string) :=
  remove_dups (rule_pair <$> yara_matches self).

Fixpoint has_colon (s : string) : bool :=
  match s with
  | EmptyString => false
  | String c s' => bool_decide (c = ":"%char) || has_colon s'
  end.

(** The world after [__exit__] removed the file, and the world in which
    the file has been cut to length zero but is still there. *)
Definition exit_world (st : State) : World :=
  set_fs (set_nodes (delete (download_path (self st)) (nodes (fs (world st))))
            (fs (world st))) (world st).

Definition truncated_world (st : State) : World :=
  set_fs (set_nodes (<[download_path (self st) := File ""]> (nodes (fs (world st))))
            (fs (world st))) (world st).

(** A regular file that may be opened for writing and unlinked. *)
Definition removable (w : World) (path : string) : Prop :=
  Os.isfile (fs w) path = true ∧
  (path ∉ wr_denied (fs w)) ∧ (path ∉ rm_denied (fs w)).

(** The steps of [__enter__], each in the world the previous one left. *)
Inductive stage := Fetch | Hashing | Scan.

Definition fetch_step (svc : Services) (st : State) : Result (string * Dict.t string) * World :=
  download_from_s3 svc (bucket_name (self st)) (object_key (self st))
    (download_path (self st)) (time_time svc (world st)).2.

Definition hash_step (svc : Services) (st : State) : Result (string * string) * World :=
  compute_hashes svc (download_path (self st))
    (time_time svc (fetch_step svc st).2).2.

Definition scan_step (svc : Services) (st : State) (md : Dict.t string) : Result (list YaraMatch) * World :=
  analyze (yara_analyzer (self st)) (download_path (self st))
    (Dict.get_default "filepath" "" md) (hash_step svc st).2.

(** Step [s] of [__enter__] raises [e], the steps before it having returned. *)
Definition fails_at (svc : Services) (st : State) (s : stage) (e : exc) : Prop :=
  match s with
  | Fetch => (fetch_step svc st).1 = inl e
  | Hashing =>
      ∃ lm md, (fetch_step svc st).1 = inr (lm, md) ∧
               (hash_step svc st).1 = inl e
  | Scan =>
      ∃ lm md sha md5, (fetch_step svc st).1 = inr (lm, md) ∧
                       (hash_step svc st).1 = inr (sha, md5) ∧
                       (scan_step svc st md).1 = inl e
  end.

(** The record after the download, and after the hashing, returned. *)
Definition downloaded (svc : Services) (st : State) (lm : string) (md : Dict.t string) : BinaryInfo :=
  set_download_time_ms
    (((time_time svc (fetch_step svc st).2).1 - (time_time svc (world st)).1) * 1000)
    (set_download lm md (self st)).

Definition download_events (b : BinaryInfo) : list Event :=
  [ LogDebug ("Downloading " +:+ object_key b +:+ " to " +:+ download_path b);
    CallTime;
    CallDownload (bucket_name b) (object_key b) (download_path b) ].

(** ** Sample data *)

Module Sample.

Definition path : string := "/tmp/binaryalert_6f1c".

Definition match1 : YaraMatch :=
  {| rule := "evil_rule"; namespace := "externals/evil.yara";
     tags := ["mimikatz"]; meta := [("description", PStr "test rule")];
     strings := [(10, "$s2", "b"); (3, "$s1", "a"); (42, "$s1", "a")] |}.

(** The same hit, its strings reported in another order. *)
Definition match1' : YaraMatch :=
  {| rule := "evil_rule"; namespace := "externals/evil.yara";
     tags := ["mimikatz"]; meta := [("description", PStr "test rule")];
     strings := [(3, "$s1", "a"); (10, "$s2", "b")] |}.

Definition match2 : YaraMatch :=
  {| rule := "other"; namespace := "externals/evil.yara";
     tags := []; meta := []; strings := [(0, "$x", "MZ")] |}.

Definition analyzer : YaraAnalyzer :=
  {| analyze := λ _ _ w, (inr [match1; match2], w) |}.

Definition record : BinaryInfo := init_fields "/tmp" "6f1c" "bucket" "key.exe" analyzer.

Definition scanned : BinaryInfo := set_yara_matches [match1; match2] record.

Definition scanned' : BinaryInfo := set_yara_matches [match1'; match2] record.

Definition fs_of (n : gmap string node) (wr rm : gset string) : World :=
  {| fs := {| nodes := n; wr_denied := wr; rm_denied := rm |}; remote := ∅ |}.

Definition world_empty : World := fs_of ∅ ∅ ∅.
Definition world_file : World := fs_of {[ path := File "MZ" ]} ∅ ∅.
Definition world_dir : World := fs_of {[ path := Dir ]} ∅ ∅.
Definition world_undeletable : World := fs_of {[ path := File "MZ" ]} ∅ {[ path ]}.

Definition state (b : BinaryInfo) (w : World) : State :=
  {| self := b; world := w; trace := [] |}.

Definition write_file (p content : string) (w : World) : World :=
  set_fs (set_nodes (<[p := File content]> (nodes (fs w))) (fs w)) w.

Definition record_alert (k : string) (w : World) : World :=
  {| fs := fs w; remote := <[k := PBool true]> (remote w) |}.

(** A Dynamo table that asks for an alert the first time an object is saved. *)
Definition table : DynamoMatchTable :=
  {| save_matches := λ b _ w,
       match remote w !! s3_identifier b with
       | None => (inr true, record_alert (s3_identifier b) w)
       | Some _ => (inr false, w)
       end |}.

Definition broken_table : DynamoMatchTable :=
  {| save_matches := λ _ _ w, (inl (ClientError "ProvisionedThroughputExceeded"), w) |}.

Definition services : Services :=
  {| gettempdir := λ _, "/tmp";
     uuid4 := λ w, ("6f1c", w);
     time_time := λ w, (0, w);
     download_from_s3 := λ _ _ p w,
       (inr ("2017-08-01", [("filepath", "/usr/bin/evil")]), write_file p "MZ" w);
     compute_hashes := λ _ w, (inr ("sha", "md5"), w);
     DynamoMatchTable_new := λ _ w, (inr table, w);
     publish_alert_to_sns := λ _ _ w, (inr tt, w) |}.

(** The object is not in the bucket. *)
Definition services_404 : Services :=
  {| gettempdir := gettempdir services; uuid4 := uuid4 services;
     time_time := time_time services;
     download_from_s3 := λ _ _ _ w, (inl (ClientError "404"), w);
     compute_hashes := compute_hashes services;
     DynamoMatchTable_new := DynamoMatchTable_new services;
     publish_alert_to_sns := publish_alert_to_sns services |}.

(** The table cannot be written. *)
Definition services_dynamo_down : Services :=
  {| gettempdir := gettempdir services; uuid4 := uuid4 services;
     time_time := time_time services;
     download_from_s3 := download_from_s3 services;
     compute_hashes := compute_hashes services;
     DynamoMatchTable_new := λ _ w, (inr broken_table, w);
     publish_alert_to_sns := publish_alert_to_sns services |}.

End Sample.

(** ** Counting calls *)

Definition is_download (ev : Event) : bool :=
  match ev with
  | CallDownload _ _ _ => true
  | _ => false
  end.

Definition is_table (ev : Event) : bool :=
  match ev with
  | CallDynamoMatchTable _ => true
  | _ => false
  end.

Definition is_save (ev : Event) : bool :=
  match ev with
  | CallSaveMatches _ => true
  | _ => false
  end.

Definition count (f : Event → bool) (evs : list Event) : nat :=
  length (List.filter f evs).

(** The local path a call is made on, for the calls that take one. *)
Definition event_path (ev : Event) : option string :=
  match ev with
  | CallDownload _ _ p | CallComputeHashes p | CallAnalyze p _
  | CallIsFile p | CallOpenWB p | CallTruncate p | CallClose p
  | CallRemove p => Some p
  | _ => None
  end.

(** Nothing is stored under the path: it is absent or an empty file. *)
Definition no_data (w : World) (path : string) : Prop :=
  nodes (fs w) !! path = None ∨ nodes (fs w) !! path = Some (File "").

(** ** More sample data *)

Module Outage.

(** The topic cannot be published to. *)
Definition services_sns_down : Services :=
  {| gettempdir := gettempdir Sample.services; uuid4 := uuid4 Sample.services;
     time_time := time_time Sample.services;
     download_from_s3 := download_from_s3 Sample.services;
     compute_hashes := compute_hashes Sample.services;
     DynamoMatchTable_new := DynamoMatchTable_new Sample.services;
     publish_alert_to_sns := λ _ _ w, (inl (ClientError "AuthorizationError"), w) |}.

(** The uuid generator, fed from the world. *)
Definition services_uuid : Services :=
  {| gettempdir := gettempdir Sample.services;
     uuid4 := λ w, match remote w !! "uuid" with
                   | Some (PStr u) => (u, w)
                   | _ => ("0000", w)
                   end;
     time_time := time_time Sample.services;
     download_from_s3 := download_from_s3 Sample.services;
     compute_hashes := compute_hashes Sample.services;
     DynamoMatchTable_new := DynamoMatchTable_new Sample.services;
     publish_alert_to_sns := publish_alert_to_sns Sample.services |}.

Definition world_uuid_a : World :=
  {| fs := fs Sample.world_empty; remote := {[ "uuid" := PStr "6f1c" ]} |}.

Definition world_uuid_b : World :=
  {| fs := fs Sample.world_empty; remote := {[ "uuid" := PStr "a2d7" ]} |}.

End Outage.

(** Two records of the same object: what [__init__] was given and built. *)
Definition same_inputs (b1 b2 : BinaryInfo) : Prop :=
  bucket_name b1 = bucket_name b2 ∧ object_key b1 = object_key b2 ∧
  s3_identifier b1 = s3_identifier b2 ∧ download_path b1 = download_path b2 ∧
  yara_analyzer b1 = yara_analyzer b2.

Module Stale.

(** A record that already holds results of an earlier analysis. *)
Definition record : BinaryInfo :=
  set_yara_matches [Sample.match2]
    (set_hashes "old-sha" "old-md5" (set_download "1999-01-01" [] Sample.record)).

End Stale.

(** * Properties *)

(** ** Dictionaries *)

Lemma Dict_get_set_eq {V} k (v : V) d : Dict.get k (Dict.set k v d) = Some v.
Proof.
  induction d as [|[k' v'] d IH]; simpl.
  - by rewrite decide_True.
  - destruct (decide (k' = k)) as [->|Hne]; simpl.
    + by rewrite decide_True.
    + by rewrite decide_False.
Qed.

Lemma Dict_set_fresh {V} k (v : V) d :
  k ∉ Dict.keys d → Dict.set k v d = d ++ [(k, v)].
Proof.
  induction d as [|[k' v'] d IH]; simpl; [done|].
  intros Hk. apply not_elem_of_cons in Hk as [Hne Hk].
  rewrite decide_False by done. by rewrite IH.
Qed.

Lemma Dict_get_app_fresh {V} k (d1 d2 : Dict.t V) :
  k ∉ Dict.keys d1 → Dict.get k (d1 ++ d2) = Dict.get k d2.
Proof.
  induction d1 as [|[k' v'] d1 IH]; simpl; [done|].
  intros Hk. apply not_elem_of_cons in Hk as [Hne Hk].
  rewrite decide_False by done. by apply IH.
Qed.

Lemma Dict_get_Some_elem {V} k (v : V) d : Dict.get k d = Some v → (k, v) ∈ d.
Proof.
  induction d as [|[k' v'] d IH]; simpl; [done|].
  destruct (decide (k' = k)) as [->|Hne].
  - intros [= ->]. left.
  - intros H. right. by apply IH.
Qed.

Lemma Dict_get_None {V} k (d : Dict.t V) : Dict.get k d = None ↔ k ∉ Dict.keys d.
Proof.
  induction d as [|[k' v'] d IH]; simpl.
  - split; [intros _; apply not_elem_of_nil | done].
  - destruct (decide (k' = k)) as [->|Hne].
    + split; [done|]. intros H. exfalso. apply H. left.
    + rewrite IH. rewrite not_elem_of_cons.
      split; [intros ?; split; [congruence|done] | by intros [_ ?]].
Qed.

Lemma Dict_get_elem_NoDup {V} k (v : V) d :
  NoDup (Dict.keys d) → (k, v) ∈ d → Dict.get k d = Some v.
Proof.
  induction d as [|[k' v'] d IH]; simpl.
  - intros _ H. by apply elem_of_nil in H.
  - intros Hnd Hin. apply NoDup_cons in Hnd as [Hk' Hnd].
    apply elem_of_cons in Hin as [[= <- <-]|Hin].
    + by rewrite decide_True.
    + destruct (decide (k' = k)) as [->|Hne]; [|by apply IH].
      exfalso. apply Hk'. apply list_elem_of_fmap. by exists (k, v).
Qed.

(** ** Rule labels *)

Lemma rule_label_inj i j : rule_label i = rule_label j → i = j.
Proof.
  unfold rule_label. intros H.
  apply (inj (String.app "Rule")) in H. by apply (inj pretty) in H.
Qed.

Lemma enumerate_fst_ge {A} start (l : list A) i x :
  (i, x) ∈ enumerate start l → start ≤ i.
Proof.
  revert start. induction l as [|y l IH]; intros start; simpl.
  - intros H. by apply elem_of_nil in H.
  - intros [[= -> ->]|H]%elem_of_cons; [lia|].
    apply IH in H. lia.
Qed.

Lemma enumerate_lookup {A} start (l : list A) (i : nat) :
  enumerate start l !! i = (λ x, (start + Z.of_nat i, x)) <$> l !! i.
Proof.
  revert start i. induction l as [|y l IH]; intros start [|i]; simpl; try done.
  - by rewrite Z.add_0_r.
  - rewrite IH. destruct (l !! i); simpl; [|done].
    do 2 f_equal. lia.
Qed.

Lemma enumerate_labels {A} start (l : list A) :
  (λ im : Z * A, rule_label im.1) <$> enumerate start l
  = (λ i : nat, rule_label (start + Z.of_nat i)) <$> seq 0 (length l).
Proof.
  revert start. induction l as [|y l IH]; intros start; simpl; [done|].
  rewrite Z.add_0_r. f_equal.
  rewrite IH. rewrite <- (fmap_S_seq 0), <- list_fmap_compose.
  apply list_fmap_ext. intros _ i _. simpl. f_equal. lia.
Qed.

Section SummaryLoop.
Variable set_iter : gset string → list string.

(** The loop appends one labelled block per match, in list order. *)
Lemma matched_rules_loop start (ms : list YaraMatch) (d : Dict.t pyval) :
  (∀ k, k ∈ Dict.keys d → ∀ i, start ≤ i → k ≠ rule_label i) →
  fold_left (add_rule set_iter) (enumerate start ms) d
  = d ++ (labelled_block set_iter <$> enumerate start ms).
Proof.
  revert start d. induction ms as [|m ms IH]; intros start d Hd; simpl.
  - by rewrite app_nil_r.
  - unfold add_rule at 2. simpl. rewrite Dict_set_fresh.
    + rewrite IH.
      * by rewrite <- app_assoc.
      * intros k Hk i Hi. unfold Dict.keys in Hk.
        rewrite fmap_app in Hk. apply elem_of_app in Hk as [Hk|Hk].
        -- apply Hd; [done|lia].
        -- apply list_elem_of_singleton in Hk as ->. simpl.
           intros Heq%rule_label_inj. lia.
    + intros Hk. by eapply (Hd _ Hk start).
Qed.

Lemma matched_rules_spec (ms : list YaraMatch) :
  fold_left (add_rule set_iter) (enumerate 1 ms) []
  = labelled_block set_iter <$> enumerate 1 ms.
Proof.
  rewrite matched_rules_loop; [done|].
  intros k Hk. by apply elem_of_nil in Hk.
Qed.

Lemma matched_rules_keys (ms : list YaraMatch) :
  Dict.keys (labelled_block set_iter <$> enumerate 1 ms) = rule_labels (length ms).
Proof.
  unfold Dict.keys, rule_labels. rewrite <- list_fmap_compose.
  etrans; [apply (enumerate_labels 1 ms)|].
  apply list_fmap_ext. intros _ i _. simpl. f_equal. lia.
Qed.

Lemma rule_labels_NoDup n : NoDup (rule_labels n).
Proof.
  unfold rule_labels. apply NoDup_fmap_2_strong; [|apply NoDup_seq].
  intros i j _ _ H%rule_label_inj. lia.
Qed.

Lemma matched_rules_get (ms : list YaraMatch) (i : nat) m :
  ms !! i = Some m →
  Dict.get (rule_label (Z.of_nat (S i))) (labelled_block set_iter <$> enumerate 1 ms)
  = Some (rule_block set_iter m).
Proof.
  intros Hm. apply Dict_get_elem_NoDup.
  - rewrite matched_rules_keys. apply rule_labels_NoDup.
  - apply list_elem_of_fmap. exists (Z.of_nat (S i), m). split; [done|].
    apply list_elem_of_lookup. exists i.
    rewrite enumerate_lookup, Hm. simpl. do 2 f_equal. lia.
Qed.
End SummaryLoop.

(** ** matched_rule_ids *)

Lemma app_nil_l_string s : "" +:+ s = s.
Proof. done. Qed.

Lemma app_cons_string c s t : String c s +:+ t = String c (s +:+ t).
Proof. done. Qed.

Ltac string_app_norm :=
  repeat (rewrite app_nil_l_string || rewrite app_cons_string).

Lemma has_colon_pair_id ns r : has_colon (ns +:+ String ":" r) = true.
Proof.
  induction ns as [|c ns IH]; string_app_norm; simpl; [done|].
  rewrite IH. by rewrite orb_true_r.
Qed.

(** The separator splits an id back into its pair as long as the rule
    name, a YARA identifier, holds no colon. *)
Lemma pair_id_inj ns1 r1 ns2 r2 :
  has_colon r1 = false → has_colon r2 = false →
  ns1 +:+ ":" +:+ r1 = ns2 +:+ ":" +:+ r2 → ns1 = ns2 ∧ r1 = r2.
Proof.
  intros H1 H2. revert ns2.
  induction ns1 as [|c1 ns1 IH]; intros [|c2 ns2]; string_app_norm; intros Heq.
  - by injection Heq as ->.
  - exfalso. injection Heq as <- ->.
    by rewrite has_colon_pair_id in H1.
  - exfalso. injection Heq as -> <-.
    by rewrite has_colon_pair_id in H2.
  - injection Heq as -> Heq.
    destruct (IH ns2) as [-> ->]; [by string_app_norm|done].
Qed.

Lemma rule_id_pair m : rule_id m = pair_id (rule_pair m).
Proof. done. Qed.

Lemma size_list_to_set_le (l : list string) :
  (size (list_to_set (C:=gset string) l) ≤ length l)%nat.
Proof.
  assert (list_to_set (C:=gset string) l = list_to_set (remove_dups l)) as ->.
  { apply set_eq. intros s. by rewrite !elem_of_list_to_set, elem_of_remove_dups. }
  rewrite size_list_to_set by apply NoDup_remove_dups.
  induction l as [|x l IH]; simpl; [done|].
  case_decide; simpl; lia.
Qed.

(** C2. [matched_rule_ids] holds the string "namespace:rule" of every match
    of the record and nothing else; every (namespace, rule name) pair of the
    match list has exactly one entry, however often the pair occurs; and as
    long as rule names hold no colon (YARA identifiers do not), the set has
    as many entries as the match list has distinct pairs. *)
Theorem matched_rule_ids_one_per_pair (self : BinaryInfo) :
  (∀ s, s ∈ matched_rule_ids self ↔
        ∃ m, m ∈ yara_matches self ∧ s = namespace m +:+ ":" +:+ rule m) ∧
  (∀ p, p ∈ distinct_pairs self →
        ∃ s, (s ∈ matched_rule_ids self ∧ s = pair_id p) ∧
             ∀ s', s' ∈ matched_rule_ids self ∧ s' = pair_id p → s' = s) ∧
  matched_rule_ids self = list_to_set (pair_id <$> distinct_pairs self) ∧
  (size (matched_rule_ids self) ≤ length (distinct_pairs self))%nat ∧
  ((∀ m, m ∈ yara_matches self → has_colon (rule m) = false) →
   size (matched_rule_ids self) = length (distinct_pairs self)).
Proof.
  assert (Hmem : ∀ s, s ∈ matched_rule_ids self ↔
                      ∃ m, m ∈ yara_matches self ∧ s = rule_id m).
  { intros s. unfold matched_rule_ids.
    rewrite elem_of_list_to_set, list_elem_of_fmap.
    split; intros (m & H1 & H2); exists m; by split. }
  assert (Hcollapse : matched_rule_ids self
                      = list_to_set (pair_id <$> distinct_pairs self)).
  { apply set_eq. intros s. rewrite Hmem, elem_of_list_to_set, list_elem_of_fmap.
    unfold distinct_pairs. split.
    - intros (m & Hm & ->). exists (rule_pair m). split; [done|].
      apply elem_of_remove_dups, list_elem_of_fmap. by exists m.
    - intros (p & -> & Hp). apply elem_of_remove_dups, list_elem_of_fmap in Hp
        as (m & -> & Hm). by exists m. }
  split_and!.
  - done.
  - intros p Hp. exists (pair_id p). split; [split; [|done]|by intros s' [_ ->]].
    rewrite Hcollapse, elem_of_list_to_set. apply list_elem_of_fmap. by exists p.
  - done.
  - rewrite Hcollapse. etrans; [apply size_list_to_set_le|].
    by rewrite length_fmap.
  - intros Hcolon. rewrite Hcollapse.
    rewrite size_list_to_set; [apply length_fmap|].
    apply NoDup_fmap_2_strong; [|apply NoDup_remove_dups].
    intros [ns1 r1] [ns2 r2] Hp1 Hp2 Heq.
    apply elem_of_remove_dups, list_elem_of_fmap in Hp1 as (m1 & [= -> ->] & Hm1).
    apply elem_of_remove_dups, list_elem_of_fmap in Hp2 as (m2 & [= E1 E2] & Hm2).
    unfold pair_id in Heq. simpl in Heq.
    apply pair_id_inj in Heq as [-> ->]; [done|by apply Hcolon|].
    rewrite E2. by apply Hcolon.
Qed.

(** ** The order of Python strings *)

(** [String.le] is the lexicographic order on the character codes. *)
Lemma String_le_nil s : String.le "" s.
Proof. by destruct s. Qed.

Lemma String_le_cons a s b t :
  String.le (String a s) (String b t) ↔
  (N_of_ascii a < N_of_ascii b)%N ∨ (a = b ∧ String.le s t).
Proof.
  unfold String.le, String.leb. simpl. unfold Ascii.compare.
  destruct (N.compare_spec (N_of_ascii a) (N_of_ascii b)) as [Heq|Hlt|Hgt].
  - assert (a = b) as ->.
    { rewrite <- (ascii_N_embedding a), <- (ascii_N_embedding b). by rewrite Heq. }
    split; [by right|]. intros [Hlt|[_ H]]; [lia|done].
  - split; [by left|done].
  - split; [done|]. intros [Hlt|[-> _]]; lia.
Qed.

(** ** sorted *)

Lemma sorted_Sorted l : Sorted String.le (sorted l).
Proof. apply (Sorted_merge_sort String.le). Qed.

Lemma sorted_Permutation l : sorted l ≡ₚ l.
Proof. apply (merge_sort_Permutation String.le). Qed.

Lemma sorted_perm_eq l1 l2 : l1 ≡ₚ l2 → sorted l1 = sorted l2.
Proof.
  intros Hp. apply (Sorted_unique String.le); [apply sorted_Sorted..|].
  by rewrite !sorted_Permutation.
Qed.

Section MatchedStrings.
Variable set_iter : gset string → list string.
Hypothesis set_iter_perm : set_iter_ok set_iter.

Lemma matched_strings_elem m s :
  s ∈ matched_strings set_iter m ↔ s ∈ item1 <$> strings m.
Proof.
  unfold matched_strings. rewrite sorted_Permutation, (set_iter_perm _).
  by rewrite elem_of_elements, elem_of_list_to_set.
Qed.

Lemma matched_strings_NoDup m : NoDup (matched_strings set_iter m).
Proof.
  unfold matched_strings. rewrite sorted_Permutation, (set_iter_perm _).
  apply NoDup_elements.
Qed.

(** The enumeration order of the set does not show in the result. *)
Lemma matched_strings_canonical m :
  matched_strings set_iter m = sorted (remove_dups (item1 <$> strings m)).
Proof.
  unfold matched_strings. apply sorted_perm_eq.
  rewrite (set_iter_perm _). apply NoDup_Permutation.
  - apply NoDup_elements.
  - apply NoDup_remove_dups.
  - intros s. by rewrite elem_of_elements, elem_of_list_to_set, elem_of_remove_dups.
Qed.
End MatchedStrings.

Lemma matched_strings_same_match it1 it2 m1 m2 :
  set_iter_ok it1 → set_iter_ok it2 → same_match m1 m2 →
  matched_strings it1 m1 = matched_strings it2 m2.
Proof.
  intros H1 H2 (_ & _ & _ & _ & Hs).
  unfold matched_strings. rewrite Hs. apply sorted_perm_eq.
  by rewrite (H1 _), (H2 _).
Qed.

Lemma rule_block_same_match it1 it2 m1 m2 :
  set_iter_ok it1 → set_iter_ok it2 → same_match m1 m2 →
  rule_block it1 m1 = rule_block it2 m2.
Proof.
  intros H1 H2 Hm. unfold rule_block.
  rewrite (matched_strings_same_match it1 it2 m1 m2) by done.
  destruct Hm as (-> & -> & -> & -> & _). done.
Qed.

Lemma labelled_blocks_same_match it1 it2 start ms1 ms2 :
  set_iter_ok it1 → set_iter_ok it2 → Forall2 same_match ms1 ms2 →
  labelled_block it1 <$> enumerate start ms1
  = labelled_block it2 <$> enumerate start ms2.
Proof.
  intros H1 H2 Hms. revert start.
  induction Hms as [|m1 m2 ms1 ms2 Hm Hms IH]; intros start; simpl; [done|].
  unfold labelled_block at 1 3. simpl.
  rewrite (rule_block_same_match it1 it2 m1 m2) by done.
  by rewrite IH.
Qed.

Lemma summary_spec set_iter self :
  summary set_iter self
  = PDict [ ("FileInfo", file_info self);
            ("MatchedRules",
             PDict (labelled_block set_iter <$> enumerate 1 (yara_matches self)));
            ("NumMatchedRules", PInt (Z.of_nat (length (yara_matches self)))) ].
Proof. unfold summary. by rewrite matched_rules_spec. Qed.

(** C3. In the summary, the MatchedStrings list of the block of every match
    is sorted in lexicographic order, holds no identifier twice, and holds
    exactly the identifiers of the strings of that match. *)
Theorem summary_matched_strings_sorted
    (set_iter : gset string → list string) (self : BinaryInfo)
    (i : nat) (m : YaraMatch) :
  set_iter_ok set_iter →
  yara_matches self !! i = Some m →
  ∃ l, py_path ["MatchedRules"; rule_label (Z.of_nat (S i)); "MatchedStrings"]
               (summary set_iter self) = Some (PStrList l) ∧
       Sorted String.le l ∧ NoDup l ∧
       ∀ s, s ∈ l ↔ ∃ t, t ∈ strings m ∧ s = t.1.2.
Proof.
  intros Hiter Hm. exists (matched_strings set_iter m). split_and!.
  - rewrite summary_spec. simpl.
    by rewrite (matched_rules_get set_iter _ i m Hm).
  - apply sorted_Sorted.
  - by apply matched_strings_NoDup.
  - intros s. rewrite matched_strings_elem by done.
    rewrite list_elem_of_fmap.
    split; intros (t & H1 & H2); exists t; by split.
Qed.

(** ** The shape of the summary *)

Example rule_labels_3 : rule_labels 3 = ["Rule1"; "Rule2"; "Rule3"].
Proof. reflexivity. Qed.

Example rule_label_12 : rule_label 12 = "Rule12".
Proof. reflexivity. Qed.

(** C4. The summary has the keys FileInfo, MatchedRules and
    NumMatchedRules; FileInfo has the keys MD5, S3LastModified, S3Location,
    S3Metadata and SHA256; MatchedRules has the keys Rule1 ... Rulen in the
    order of the match list, the block under Rule(i+1) is built from the
    match at position i and has the keys MatchedStrings, Meta, RuleFile,
    RuleName and RuleTags; NumMatchedRules is the length of the match list.
    Without matches MatchedRules is empty and NumMatchedRules is 0. *)
Theorem summary_schema (set_iter : gset string → list string) (self : BinaryInfo) :
  let s := summary set_iter self in
  let n := length (yara_matches self) in
  py_keys s = Some ["FileInfo"; "MatchedRules"; "NumMatchedRules"] ∧
  (∃ fi, py_get "FileInfo" s = Some fi ∧
         py_keys fi = Some ["MD5"; "S3LastModified"; "S3Location";
                            "S3Metadata"; "SHA256"]) ∧
  (∃ mr, py_get "MatchedRules" s = Some mr ∧
         py_keys mr = Some (rule_labels n) ∧
         NoDup (rule_labels n) ∧
         ∀ (i : nat) m, yara_matches self !! i = Some m →
           ∃ blk, py_get ("Rule" +:+ pretty (Z.of_nat i + 1)) mr = Some blk ∧
                  py_keys blk = Some ["MatchedStrings"; "Meta"; "RuleFile";
                                      "RuleName"; "RuleTags"] ∧
                  py_get "MatchedStrings" blk
                  = Some (PStrList (matched_strings set_iter m)) ∧
                  py_get "Meta" blk = Some (PDict (meta m)) ∧
                  py_get "RuleFile" blk = Some (PStr (namespace m)) ∧
                  py_get "RuleName" blk = Some (PStr (rule m)) ∧
                  py_get "RuleTags" blk = Some (PStrList (tags m))) ∧
  py_get "NumMatchedRules" s = Some (PInt (Z.of_nat n)) ∧
  (yara_matches self = [] →
   py_get "MatchedRules" s = Some (PDict []) ∧
   py_get "NumMatchedRules" s = Some (PInt 0)).
Proof.
  intros s n. subst s n. rewrite summary_spec. split_and!.
  - done.
  - by eexists.
  - eexists. split; [done|]. split_and!.
    + simpl. by rewrite matched_rules_keys.
    + apply rule_labels_NoDup.
    + intros i m Hm. exists (rule_block set_iter m). split; [|done].
      simpl. replace (Z.of_nat i + 1) with (Z.of_nat (S i)) by lia.
      by apply matched_rules_get.
  - done.
  - by intros ->.
Qed.

(** ** Determinism of the summary *)

Lemma same_match_refl m : same_match m m.
Proof. by repeat split. Qed.

Lemma same_record_refl b : same_record b b.
Proof.
  repeat split. induction (yara_matches b); constructor; auto using same_match_refl.
Qed.

(** C8. The summary is a function of the record's state alone: whatever
    order the sets are enumerated in, and whatever order and repetition the
    engine reported the matched-string identifiers in, two records in the
    same state have the same summary. *)
Theorem summary_deterministic
    (iter1 iter2 : gset string → list string) (b1 b2 : BinaryInfo) :
  set_iter_ok iter1 → set_iter_ok iter2 → same_record b1 b2 →
  summary iter1 b1 = summary iter2 b2.
Proof.
  intros H1 H2 (Hid & Hlm & Hmd & Hmd5 & Hsha & Hms).
  rewrite !summary_spec. unfold file_info.
  rewrite Hid, Hlm, Hmd, Hmd5, Hsha.
  rewrite (labelled_blocks_same_match iter1 iter2 1 _ _ H1 H2 Hms).
  by rewrite (Forall2_length _ _ _ Hms).
Qed.

(** ** Traces *)

Lemma events_app {A} (m : M A) st evs :
  trace (m st).2 = trace st ++ evs → events m st = evs.
Proof. unfold events. intros ->. by rewrite drop_app_length. Qed.

Ltac run_monad :=
  unfold mbind, M_bind, mret, M_ret, Py.bind, Py.ret, Py.call_total, Py.call,
    Py.get_self, Py.modify_self, Py.emit, Py.finally; simpl.

(** ** save_matches_and_alert *)

Section SaveAndAlert.
Variable svc : Services.
Variables (analyzer_version : Z) (dynamo_table_name sns_topic_arn : string).

Local Abbreviation run := (save_matches_and_alert svc analyzer_version
                         dynamo_table_name sns_topic_arn).

(** Creating the table object raises: nothing else is called. *)
Lemma save_table_raises st e w1 :
  DynamoMatchTable_new svc dynamo_table_name (world st) = (inl e, w1) →
  run st = (inl e, {| self := self st; world := w1;
                      trace := trace st ++ [CallDynamoMatchTable dynamo_table_name] |}).
Proof. intros H. unfold save_matches_and_alert. run_monad. by rewrite H. Qed.

(** The save raises: the exception leaves the method, after two calls. *)
Lemma save_raises st t w1 e w2 :
  DynamoMatchTable_new svc dynamo_table_name (world st) = (inr t, w1) →
  save_matches t (self st) analyzer_version w1 = (inl e, w2) →
  run st = (inl e, {| self := self st; world := w2;
                      trace := trace st ++ [CallDynamoMatchTable dynamo_table_name;
                                            CallSaveMatches analyzer_version] |}).
Proof.
  intros H1 H2. unfold save_matches_and_alert. run_monad.
  rewrite H1. simpl. rewrite H2. simpl. by rewrite <- app_assoc.
Qed.

Lemma save_no_alert st t w1 w2 :
  DynamoMatchTable_new svc dynamo_table_name (world st) = (inr t, w1) →
  save_matches t (self st) analyzer_version w1 = (inr false, w2) →
  run st = (inr tt, {| self := self st; world := w2;
                       trace := trace st ++ [CallDynamoMatchTable dynamo_table_name;
                                             CallSaveMatches analyzer_version] |}).
Proof.
  intros H1 H2. unfold save_matches_and_alert. run_monad.
  rewrite H1. simpl. rewrite H2. simpl. by rewrite <- app_assoc.
Qed.

Lemma save_alert st t w1 w2 :
  DynamoMatchTable_new svc dynamo_table_name (world st) = (inr t, w1) →
  save_matches t (self st) analyzer_version w1 = (inr true, w2) →
  run st = ((publish_alert_to_sns svc (self st) sns_topic_arn w2).1,
            {| self := self st;
               world := (publish_alert_to_sns svc (self st) sns_topic_arn w2).2;
               trace := trace st ++ [CallDynamoMatchTable dynamo_table_name;
                                     CallSaveMatches analyzer_version;
                                     LogInfo "Publishing an SNS alert";
                                     CallPublish sns_topic_arn] |}).
Proof.
  intros H1 H2. unfold save_matches_and_alert. run_monad.
  rewrite H1. simpl. rewrite H2. simpl.
  destruct (publish_alert_to_sns svc (self st) sns_topic_arn w2) as [r w3]. simpl.
  by rewrite <- !app_assoc.
Qed.

(** C1. [publish_alert_to_sns] is called if and only if creating the table
    object and the conditional save both returned and the save returned
    true.  It is then called once, last, with the record and the given
    topic in the world the save left, and its result and the world it leaves
    are those of the method.  When the save returned false the method
    returns in the world the save left.  When the persistence step raises,
    the same exception leaves the method, in the world that step left, and
    [publish_alert_to_sns] is not called. *)
Theorem save_matches_and_alert_publish_iff (st : State) :
  (existsb is_publish (events run st) = true ↔
     ∃ t w1 w2,
       DynamoMatchTable_new svc dynamo_table_name (world st) = (inr t, w1) ∧
       save_matches t (self st) analyzer_version w1 = (inr true, w2)) ∧
  (existsb is_publish (events run st) = true →
     events run st = [ CallDynamoMatchTable dynamo_table_name;
                       CallSaveMatches analyzer_version;
                       LogInfo "Publishing an SNS alert";
                       CallPublish sns_topic_arn ]) ∧
  (∀ e w1,
     DynamoMatchTable_new svc dynamo_table_name (world st) = (inl e, w1) →
     (run st).1 = inl e ∧ existsb is_publish (events run st) = false) ∧
  (∀ t w1 e w2,
     DynamoMatchTable_new svc dynamo_table_name (world st) = (inr t, w1) →
     save_matches t (self st) analyzer_version w1 = (inl e, w2) →
     (run st).1 = inl e ∧ existsb is_publish (events run st) = false) ∧
  (∀ t w1 w2,
     DynamoMatchTable_new svc dynamo_table_name (world st) = (inr t, w1) →
     save_matches t (self st) analyzer_version w1 = (inr true, w2) →
     run st
     = ((publish_alert_to_sns svc (self st) sns_topic_arn w2).1,
        {| self := self st;
           world := (publish_alert_to_sns svc (self st) sns_topic_arn w2).2;
           trace := trace st ++ [ CallDynamoMatchTable dynamo_table_name;
                                  CallSaveMatches analyzer_version;
                                  LogInfo "Publishing an SNS alert";
                                  CallPublish sns_topic_arn ] |})) ∧
  (∀ t w1 w2,
     DynamoMatchTable_new svc dynamo_table_name (world st) = (inr t, w1) →
     save_matches t (self st) analyzer_version w1 = (inr false, w2) →
     run st
     = (inr tt, {| self := self st; world := w2;
                   trace := trace st ++ [ CallDynamoMatchTable dynamo_table_name;
                                          CallSaveMatches analyzer_version ] |})) ∧
  (∀ t w1 e w2,
     DynamoMatchTable_new svc dynamo_table_name (world st) = (inr t, w1) →
     save_matches t (self st) analyzer_version w1 = (inl e, w2) →
     run st
     = (inl e, {| self := self st; world := w2;
                  trace := trace st ++ [ CallDynamoMatchTable dynamo_table_name;
                                         CallSaveMatches analyzer_version ] |})) ∧
  (∀ e w1,
     DynamoMatchTable_new svc dynamo_table_name (world st) = (inl e, w1) →
     run st
     = (inl e, {| self := self st; world := w1;
                  trace := trace st ++ [ CallDynamoMatchTable dynamo_table_name ] |})).
Proof.
  assert (Htrace :
    (existsb is_publish (events run st) = true ↔
       ∃ t w1 w2,
         DynamoMatchTable_new svc dynamo_table_name (world st) = (inr t, w1) ∧
         save_matches t (self st) analyzer_version w1 = (inr true, w2)) ∧
    (existsb is_publish (events run st) = true →
       events run st = [ CallDynamoMatchTable dynamo_table_name;
                         CallSaveMatches analyzer_version;
                         LogInfo "Publishing an SNS alert";
                         CallPublish sns_topic_arn ]) ∧
    (∀ e w1,
       DynamoMatchTable_new svc dynamo_table_name (world st) = (inl e, w1) →
       (run st).1 = inl e ∧ existsb is_publish (events run st) = false) ∧
    (∀ t w1 e w2,
       DynamoMatchTable_new svc dynamo_table_name (world st) = (inr t, w1) →
       save_matches t (self st) analyzer_version w1 = (inl e, w2) →
       (run st).1 = inl e ∧ existsb is_publish (events run st) = false)).
  { destruct (DynamoMatchTable_new svc dynamo_table_name (world st))
      as [[e|t] w1] eqn:Ht.
    { pose proof (save_table_raises st e w1 Ht) as Hrun.
      rewrite (events_app run st [CallDynamoMatchTable dynamo_table_name])
        by by rewrite Hrun.
      rewrite Hrun. split_and!.
      - split; [done|]. by intros (? & ? & ? & ? & _).
      - done.
      - by intros ? ? [= <- <-].
      - by intros. }
    destruct (save_matches t (self st) analyzer_version w1) as [[e|[]] w2] eqn:Hs.
    - pose proof (save_raises st t w1 e w2 Ht Hs) as Hrun.
      rewrite (events_app run st [CallDynamoMatchTable dynamo_table_name;
                                  CallSaveMatches analyzer_version])
        by by rewrite Hrun.
      rewrite Hrun. split_and!.
      + split; [done|]. intros (? & ? & ? & [= <- <-] & H). by rewrite Hs in H.
      + done.
      + by intros.
      + intros ? ? ? ? [= <- <-]. rewrite Hs. by intros [= <- <-].
    - pose proof (save_alert st t w1 w2 Ht Hs) as Hrun.
      rewrite (events_app run st [CallDynamoMatchTable dynamo_table_name;
                                  CallSaveMatches analyzer_version;
                                  LogInfo "Publishing an SNS alert";
                                  CallPublish sns_topic_arn])
        by by rewrite Hrun.
      split_and!.
      + split; [|done]. intros _. by exists t, w1, w2.
      + done.
      + by intros.
      + intros ? ? ? ? [= <- <-]. by rewrite Hs.
    - pose proof (save_no_alert st t w1 w2 Ht Hs) as Hrun.
      rewrite (events_app run st [CallDynamoMatchTable dynamo_table_name;
                                  CallSaveMatches analyzer_version])
        by by rewrite Hrun.
      split_and!.
      + split; [done|]. intros (? & ? & ? & [= <- <-] & H). by rewrite Hs in H.
      + done.
      + by intros.
      + intros ? ? ? ? [= <- <-]. by rewrite Hs. }
  destruct Htrace as (H1 & H2 & H3 & H4).
  split_and!; [done..| | | |].
  - apply save_alert.
  - apply save_no_alert.
  - apply save_raises.
  - apply save_table_raises.
Qed.

End SaveAndAlert.

(** ** __exit__ *)

Lemma exit_not_a_file in_flight st :
  Os.isfile (fs (world st)) (download_path (self st)) = false →
  __exit__ in_flight st
  = (inr tt, {| self := self st; world := world st;
                trace := trace st ++ [CallIsFile (download_path (self st))] |}).
Proof. intros H. unfold __exit__. run_monad. by rewrite H. Qed.

Lemma exit_open_refused in_flight st :
  Os.isfile (fs (world st)) (download_path (self st)) = true →
  download_path (self st) ∈ wr_denied (fs (world st)) →
  __exit__ in_flight st
  = (inl (OSError "PermissionError" (download_path (self st))),
     {| self := self st; world := world st;
        trace := trace st ++ [CallIsFile (download_path (self st));
                              CallOpenWB (download_path (self st))] |}).
Proof.
  intros H Hd. unfold __exit__. run_monad. rewrite H. simpl.
  unfold Os.open_wb. simpl. rewrite decide_True by done.
  by rewrite <- app_assoc.
Qed.

Lemma exit_remove_refused in_flight st :
  Os.isfile (fs (world st)) (download_path (self st)) = true →
  download_path (self st) ∉ wr_denied (fs (world st)) →
  download_path (self st) ∈ rm_denied (fs (world st)) →
  __exit__ in_flight st
  = (inl (OSError "PermissionError" (download_path (self st))),
     {| self := self st; world := truncated_world st;
        trace := trace st ++ [CallIsFile (download_path (self st));
                              CallOpenWB (download_path (self st));
                              CallTruncate (download_path (self st));
                              CallClose (download_path (self st));
                              CallRemove (download_path (self st))] |}).
Proof.
  intros H Hw Hr. unfold __exit__. run_monad. rewrite H. simpl.
  unfold Os.isfile in H.
  unfold Os.open_wb. simpl. rewrite decide_False by done.
  destruct (nodes (fs (world st)) !! download_path (self st)) as [[c|]|]; try done.
  simpl. unfold Os.truncate. simpl. rewrite lookup_insert_eq. simpl.
  unfold Os.remove. simpl. rewrite decide_True by done.
  rewrite insert_insert_eq. by rewrite <- !app_assoc.
Qed.

Lemma exit_removes_file in_flight st :
  Os.isfile (fs (world st)) (download_path (self st)) = true →
  download_path (self st) ∉ wr_denied (fs (world st)) →
  download_path (self st) ∉ rm_denied (fs (world st)) →
  __exit__ in_flight st
  = (inr tt,
     {| self := self st; world := exit_world st;
        trace := trace st ++ [CallIsFile (download_path (self st));
                              CallOpenWB (download_path (self st));
                              CallTruncate (download_path (self st));
                              CallClose (download_path (self st));
                              CallRemove (download_path (self st))] |}).
Proof.
  intros H Hw Hr. unfold __exit__. run_monad. rewrite H. simpl.
  unfold Os.isfile in H.
  unfold Os.open_wb. simpl. rewrite decide_False by done.
  destruct (nodes (fs (world st)) !! download_path (self st)) as [[c|]|]; try done.
  simpl. unfold Os.truncate. simpl. rewrite lookup_insert_eq. simpl.
  unfold Os.remove. simpl. rewrite decide_False by done.
  rewrite lookup_insert_eq. simpl.
  rewrite insert_insert_eq, delete_insert_eq. by rewrite <- !app_assoc.
Qed.

Lemma path_exists_exit_world st :
  path_exists (exit_world st) (download_path (self st)) = false.
Proof.
  unfold path_exists, exit_world. simpl. rewrite lookup_delete_eq.
  apply bool_decide_eq_false. by intros [? ?].
Qed.

Lemma isfile_absent w path :
  path_exists w path = false → Os.isfile (fs w) path = false.
Proof.
  unfold path_exists, Os.isfile. intros H%bool_decide_eq_false.
  destruct (nodes (fs w) !! path) as [n|]; [|done].
  exfalso. apply H. by eexists.
Qed.

(** ** __enter__ *)

Section Enter.
Variable svc : Services.

Lemma enter_fetch_raises st e :
  (fetch_step svc st).1 = inl e →
  __enter__ svc st
  = (inl e, {| self := self st; world := (fetch_step svc st).2;
               trace := trace st ++ download_events (self st) |}).
Proof.
  unfold fetch_step. intros H. unfold __enter__, _download_from_s3. run_monad.
  destruct (time_time svc (world st)) as [t0 w0]. simpl in *.
  destruct (download_from_s3 _ _ _ _ _) as [r1 w1]. simpl in *. subst r1.
  by rewrite <- !app_assoc.
Qed.

Lemma enter_hash_raises st lm md e :
  (fetch_step svc st).1 = inr (lm, md) →
  (hash_step svc st).1 = inl e →
  __enter__ svc st
  = (inl e, {| self := downloaded svc st lm md; world := (hash_step svc st).2;
               trace := trace st ++ download_events (self st)
                          ++ [CallTime; CallComputeHashes (download_path (self st))] |}).
Proof.
  unfold downloaded, hash_step, fetch_step. intros H1 H2.
  unfold __enter__, _download_from_s3. run_monad.
  destruct (time_time svc (world st)) as [t0 w0]. simpl in *.
  destruct (download_from_s3 _ _ _ _ _) as [r1 w1]. simpl in *. subst r1. simpl.
  destruct (time_time svc w1) as [t1 w2]. simpl in *.
  destruct (compute_hashes _ _ _) as [r2 w3]. simpl in *. subst r2.
  by rewrite <- !app_assoc.
Qed.

Lemma enter_scan_raises st lm md sha md5 e :
  (fetch_step svc st).1 = inr (lm, md) →
  (hash_step svc st).1 = inr (sha, md5) →
  (scan_step svc st md).1 = inl e →
  __enter__ svc st
  = (inl e, {| self := set_hashes sha md5 (downloaded svc st lm md);
               world := (scan_step svc st md).2;
               trace := trace st ++ download_events (self st)
                          ++ [CallTime; CallComputeHashes (download_path (self st));
                              LogDebug "Running YARA analysis";
                              CallAnalyze (download_path (self st))
                                (Dict.get_default "filepath" "" md)] |}).
Proof.
  unfold scan_step, downloaded, hash_step, fetch_step. intros H1 H2 H3.
  unfold __enter__, _download_from_s3. run_monad.
  destruct (time_time svc (world st)) as [t0 w0]. simpl in *.
  destruct (download_from_s3 _ _ _ _ _) as [r1 w1]. simpl in *. subst r1. simpl.
  destruct (time_time svc w1) as [t1 w2]. simpl in *.
  destruct (compute_hashes _ _ _) as [r2 w3]. simpl in *. subst r2. simpl.
  unfold filepath. simpl.
  destruct (analyze _ _ _ _) as [r3 w4]. simpl in *. subst r3.
  by rewrite <- !app_assoc.
Qed.

Lemma enter_returns st lm md sha md5 ms :
  (fetch_step svc st).1 = inr (lm, md) →
  (hash_step svc st).1 = inr (sha, md5) →
  (scan_step svc st md).1 = inr ms →
  __enter__ svc st
  = (inr (set_yara_matches ms (set_hashes sha md5 (downloaded svc st lm md))),
     {| self := set_yara_matches ms (set_hashes sha md5 (downloaded svc st lm md));
        world := (scan_step svc st md).2;
        trace := trace st ++ download_events (self st)
                   ++ [CallTime; CallComputeHashes (download_path (self st));
                       LogDebug "Running YARA analysis";
                       CallAnalyze (download_path (self st))
                         (Dict.get_default "filepath" "" md)] |}).
Proof.
  unfold scan_step, downloaded, hash_step, fetch_step. intros H1 H2 H3.
  unfold __enter__, _download_from_s3. run_monad.
  destruct (time_time svc (world st)) as [t0 w0]. simpl in *.
  destruct (download_from_s3 _ _ _ _ _) as [r1 w1]. simpl in *. subst r1. simpl.
  destruct (time_time svc w1) as [t1 w2]. simpl in *.
  destruct (compute_hashes _ _ _) as [r2 w3]. simpl in *. subst r2. simpl.
  unfold filepath. simpl.
  destruct (analyze _ _ _ _) as [r3 w4]. simpl in *. subst r3.
  by rewrite <- !app_assoc.
Qed.

(** [__enter__] ends in exactly one of four ways. *)
Lemma enter_cases st :
  (∃ e, fails_at svc st Fetch e) ∨
  (∃ e, fails_at svc st Hashing e) ∨
  (∃ e, fails_at svc st Scan e) ∨
  (∃ lm md sha md5 ms, (fetch_step svc st).1 = inr (lm, md) ∧
                       (hash_step svc st).1 = inr (sha, md5) ∧
                       (scan_step svc st md).1 = inr ms).
Proof.
  destruct (fetch_step svc st).1 as [e|[lm md]] eqn:H1; [left; by exists e|].
  destruct (hash_step svc st).1 as [e|[sha md5]] eqn:H2.
  { right; left. exists e. simpl. rewrite H1. by exists lm, md. }
  destruct (scan_step svc st md).1 as [e|ms] eqn:H3.
  { right; right; left. exists e. simpl. rewrite H1. by exists lm, md, sha, md5. }
  right; right; right. by exists lm, md, sha, md5, ms.
Qed.
End Enter.

(** ** Worked examples *)

Example sample_download_path : download_path Sample.record = Sample.path.
Proof. reflexivity. Qed.

Example sample_matched_strings :
  matched_strings elements Sample.match1 = ["$s1"; "$s2"].
Proof. vm_compute. reflexivity. Qed.

Example sample_summary :
  summary elements Sample.scanned
  = PDict [ ("FileInfo",
             PDict [ ("MD5", PNone); ("S3LastModified", PStr "");
                     ("S3Location", PStr "S3:bucket:key.exe");
                     ("S3Metadata", PDict []); ("SHA256", PNone) ]);
            ("MatchedRules",
             PDict [ ("Rule1",
                      PDict [ ("MatchedStrings", PList [PStr "$s1"; PStr "$s2"]);
                              ("Meta", PDict [("description", PStr "test rule")]);
                              ("RuleFile", PStr "externals/evil.yara");
                              ("RuleName", PStr "evil_rule");
                              ("RuleTags", PList [PStr "mimikatz"]) ]);
                     ("Rule2",
                      PDict [ ("MatchedStrings", PList [PStr "$x"]);
                              ("Meta", PDict []);
                              ("RuleFile", PStr "externals/evil.yara");
                              ("RuleName", PStr "other");
                              ("RuleTags", PList []) ]) ]);
            ("NumMatchedRules", PInt 2) ].
Proof. vm_compute. reflexivity. Qed.

Example sample_enter :
  let r := __enter__ Sample.services (Sample.state Sample.record Sample.world_empty) in
  computed_sha (self r.2) = Some "sha" ∧
  yara_matches (self r.2) = [Sample.match1; Sample.match2] ∧
  Os.isfile (fs (world r.2)) Sample.path = true ∧
  trace r.2 = [ LogDebug "Downloading key.exe to /tmp/binaryalert_6f1c"; CallTime;
                CallDownload "bucket" "key.exe" Sample.path; CallTime;
                CallComputeHashes Sample.path; LogDebug "Running YARA analysis";
                CallAnalyze Sample.path "/usr/bin/evil" ].
Proof. vm_compute. done. Qed.

Example sample_exit :
  let r := __exit__ None (Sample.state Sample.record Sample.world_file) in
  r.1 = inr tt ∧ world r.2 = Sample.world_empty ∧
  trace r.2 = [ CallIsFile Sample.path; CallOpenWB Sample.path;
                CallTruncate Sample.path; CallClose Sample.path;
                CallRemove Sample.path ].
Proof. vm_compute. done. Qed.

Example sample_save_twice :
  let st0 := Sample.state Sample.scanned Sample.world_empty in
  let r1 := save_matches_and_alert Sample.services 1 "table" "arn:sns" st0 in
  let r2 := save_matches_and_alert Sample.services 1 "table" "arn:sns" r1.2 in
  trace r2.2 = [ CallDynamoMatchTable "table"; CallSaveMatches 1;
                 LogInfo "Publishing an SNS alert"; CallPublish "arn:sns";
                 CallDynamoMatchTable "table"; CallSaveMatches 1 ].
Proof. vm_compute. done. Qed.

(** ** Claims about __exit__ *)




(** The same theorem on a directory: it is left in place. *)
Example exit_directory_left_in_place :
  ∃ st', __exit__ None (Sample.state Sample.record Sample.world_dir) = (inr tt, st') ∧
         world st' = Sample.world_dir ∧
         path_exists (world st') Sample.path = true.
Proof.
  eexists. split; [reflexivity|]. split; reflexivity.
Qed.

(** C6, as the claim states it, fails: when the file cannot be removed,
    [__exit__] raises the OSError of the removal, although an application
    error is in flight, and logs nothing. *)
Lemma exit_raises_cleanup_failure :
  let st := Sample.state Sample.record Sample.world_undeletable in
  (__exit__ (Some (YaraError "scan failed")) st).1
  = inl (OSError "PermissionError" Sample.path) ∧
  existsb is_log (events (__exit__ (Some (YaraError "scan failed"))) st) = false.
Proof. vm_compute. done. Qed.

(** C6, amended. When the local path is a regular file and opening it for
    writing or removing it is refused, the OSError of that step is raised
    out of [__exit__], whatever exception is in flight; [__exit__] logs
    nothing and does not change the record. *)
Theorem exit_cleanup_failure_propagates (in_flight : option exc) (st : State) :
  let p := download_path (self st) in
  Os.isfile (fs (world st)) p = true →
  p ∈ wr_denied (fs (world st)) ∨ p ∈ rm_denied (fs (world st)) →
  (__exit__ in_flight st).1 = inl (OSError "PermissionError" p) ∧
  existsb is_log (events (__exit__ in_flight) st) = false ∧
  self (__exit__ in_flight st).2 = self st.
Proof.
  intros p Hfile Hden.
  destruct (decide (p ∈ wr_denied (fs (world st)))) as [Hw|Hw].
  - pose proof (exit_open_refused in_flight st Hfile Hw) as Hrun.
    rewrite (events_app _ st [CallIsFile p; CallOpenWB p]) by by rewrite Hrun.
    by rewrite Hrun.
  - destruct Hden as [?|Hr]; [done|].
    pose proof (exit_remove_refused in_flight st Hfile Hw Hr) as Hrun.
    rewrite (events_app _ st [CallIsFile p; CallOpenWB p; CallTruncate p;
                              CallClose p; CallRemove p]) by by rewrite Hrun.
    by rewrite Hrun.
Qed.

Lemma exit_cleanup_failure_propagates_witness :
  (__exit__ None (Sample.state Sample.record Sample.world_undeletable)).1
  = inl (OSError "PermissionError" Sample.path).
Proof.
  apply (exit_cleanup_failure_propagates None
           (Sample.state Sample.record Sample.world_undeletable)).
  - reflexivity.
  - right. apply (bool_decide_unpack _). vm_compute. exact I.
Defined.

(** ** Claims about __enter__ *)

Lemma init_fields_unset tmp uuid bucket key ya :
  computed_md5 (init_fields tmp uuid bucket key ya) = None ∧
  computed_sha (init_fields tmp uuid bucket key ya) = None ∧
  yara_matches (init_fields tmp uuid bucket key ya) = [] ∧
  s3_metadata (init_fields tmp uuid bucket key ya) = [] ∧
  s3_last_modified (init_fields tmp uuid bucket key ya) = "".
Proof. done. Qed.

(** C7. When a step of [__enter__] raises, the same exception leaves
    [__enter__] and the match list is left as it was.  When the download
    raises, the digests, the timestamp and the metadata are left as they
    were and neither the hashing nor the scan is called; when the hashing
    raises, the digests are left as they were and the scan is not called.
    On a record fresh from [__init__] the fields left as they were are the
    unset ones: no digests, no matches. *)
Theorem enter_failure_aborts (svc : Services) (st : State) (s : stage) (e : exc) :
  fails_at svc st s e →
  ∃ st', __enter__ svc st = (inl e, st') ∧
         yara_matches (self st') = yara_matches (self st) ∧
         (s = Fetch →
            computed_sha (self st') = computed_sha (self st) ∧
            computed_md5 (self st') = computed_md5 (self st) ∧
            s3_last_modified (self st') = s3_last_modified (self st) ∧
            s3_metadata (self st') = s3_metadata (self st) ∧
            download_time_ms (self st') = download_time_ms (self st) ∧
            existsb is_compute_hashes (events (__enter__ svc) st) = false ∧
            existsb is_analyze (events (__enter__ svc) st) = false) ∧
         (s = Hashing →
            computed_sha (self st') = computed_sha (self st) ∧
            computed_md5 (self st') = computed_md5 (self st) ∧
            existsb is_analyze (events (__enter__ svc) st) = false) ∧
         (∀ tmp uuid bucket key ya,
            self st = init_fields tmp uuid bucket key ya →
            yara_matches (self st') = [] ∧
            (s ≠ Scan → computed_sha (self st') = None ∧
                        computed_md5 (self st') = None)).
Proof.
  destruct s; simpl.
  - intros H. pose proof (enter_fetch_raises svc st e H) as Hrun.
    eexists. split; [exact Hrun|]. simpl.
    rewrite (events_app _ st (download_events (self st))) by by rewrite Hrun.
    split_and!; try done.
    intros ? ? ? ? ? ->. done.
  - intros (lm & md & H1 & H2).
    pose proof (enter_hash_raises svc st lm md e H1 H2) as Hrun.
    eexists. split; [exact Hrun|]. simpl.
    rewrite (events_app _ st _ ltac:(by rewrite Hrun)).
    split_and!; try done.
    intros ? ? ? ? ? ->. done.
  - intros (lm & md & sha & md5 & H1 & H2 & H3).
    pose proof (enter_scan_raises svc st lm md sha md5 e H1 H2 H3) as Hrun.
    eexists. split; [exact Hrun|]. simpl.
    split_and!; try done.
    intros ? ? ? ? ? ->. done.
Qed.

Lemma enter_failure_aborts_witness :
  ∃ st', __enter__ Sample.services_404 (Sample.state Sample.record Sample.world_empty)
         = (inl (ClientError "404"), st') ∧
         yara_matches (self st') = [] ∧ computed_sha (self st') = None.
Proof.
  destruct (enter_failure_aborts Sample.services_404
              (Sample.state Sample.record Sample.world_empty) Fetch (ClientError "404"))
    as (st' & Hrun & _ & _ & _ & Hfresh).
  - reflexivity.
  - exists st'. split; [exact Hrun|].
    destruct (Hfresh "/tmp" "6f1c" "bucket" "key.exe" Sample.analyzer eq_refl)
      as [Hm Hd].
    split; [exact Hm|]. by apply Hd.
Defined.

(** C10. The path hint is defined for every record: it is the value under
    the key filepath when the metadata has that key and the empty string
    when it has not, as when the metadata is empty.  The hint that
    [__enter__] hands to the match engine is the one read from the metadata
    the download of the same call returned. *)
Theorem filepath_hint_total (svc : Services) (st : State) :
  (∀ b v, NoDup (Dict.keys (s3_metadata b)) →
          ("filepath", v) ∈ s3_metadata b → filepath b = v) ∧
  (∀ b, "filepath" ∉ Dict.keys (s3_metadata b) → filepath b = "") ∧
  (∀ b, s3_metadata b = [] → filepath b = "") ∧
  (∀ p h, CallAnalyze p h ∈ events (__enter__ svc) st →
          p = download_path (self st) ∧
          ∃ lm md, (fetch_step svc st).1 = inr (lm, md) ∧
                   h = default "" (Dict.get "filepath" md)).
Proof.
  split_and!.
  - intros b v Hnd Hin. unfold filepath, Dict.get_default.
    by rewrite (Dict_get_elem_NoDup _ _ _ Hnd Hin).
  - intros b Hk%Dict_get_None. unfold filepath, Dict.get_default. by rewrite Hk.
  - intros b Hmd. unfold filepath. by rewrite Hmd.
  - intros p h.
    destruct (enter_cases svc st)
      as [[e H]|[[e (lm & md & H1 & H2)]|[[e (lm & md & sha & md5 & H1 & H2 & H3)]
         |(lm & md & sha & md5 & ms & H1 & H2 & H3)]]].
    + rewrite (events_app _ st _
                 ltac:(by rewrite (enter_fetch_raises svc st e H))).
      intros Hin. repeat (apply elem_of_cons in Hin as [?|Hin]; [done|]).
      by apply elem_of_nil in Hin.
    + rewrite (events_app _ st _
                 ltac:(by rewrite (enter_hash_raises svc st lm md e H1 H2))).
      intros Hin. repeat (apply elem_of_cons in Hin as [?|Hin]; [done|]).
      by apply elem_of_nil in Hin.
    + rewrite (events_app _ st _
                 ltac:(by rewrite (enter_scan_raises svc st lm md sha md5 e H1 H2 H3))).
      intros Hin. repeat (apply elem_of_cons in Hin as [Heq|Hin]; [try done|]).
      * injection Heq as -> ->. split; [done|]. by exists lm, md.
      * by apply elem_of_nil in Hin.
    + rewrite (events_app _ st _
                 ltac:(by rewrite (enter_returns svc st lm md sha md5 ms H1 H2 H3))).
      intros Hin. repeat (apply elem_of_cons in Hin as [Heq|Hin]; [try done|]).
      * injection Heq as -> ->. split; [done|]. by exists lm, md.
      * by apply elem_of_nil in Hin.
Qed.

(** ** The identity string *)

Lemma enter_keeps_identity svc st :
  s3_identifier (self (__enter__ svc st).2) = s3_identifier (self st) ∧
  bucket_name (self (__enter__ svc st).2) = bucket_name (self st) ∧
  object_key (self (__enter__ svc st).2) = object_key (self st).
Proof.
  destruct (enter_cases svc st)
    as [[e H]|[[e (lm & md & H1 & H2)]|[[e (lm & md & sha & md5 & H1 & H2 & H3)]
       |(lm & md & sha & md5 & ms & H1 & H2 & H3)]]].
  - by rewrite (enter_fetch_raises svc st e H).
  - by rewrite (enter_hash_raises svc st lm md e H1 H2).
  - by rewrite (enter_scan_raises svc st lm md sha md5 e H1 H2 H3).
  - by rewrite (enter_returns svc st lm md sha md5 ms H1 H2 H3).
Qed.

Lemma exit_keeps_self in_flight st : self (__exit__ in_flight st).2 = self st.
Proof.
  destruct (Os.isfile (fs (world st)) (download_path (self st))) eqn:Hfile.
  - destruct (decide (download_path (self st) ∈ wr_denied (fs (world st)))) as [Hw|Hw].
    { by rewrite exit_open_refused. }
    destruct (decide (download_path (self st) ∈ rm_denied (fs (world st)))) as [Hr|Hr].
    { by rewrite exit_remove_refused. }
    by rewrite exit_removes_file.
  - by rewrite exit_not_a_file.
Qed.

Lemma save_keeps_self svc v tbl arn st :
  self (save_matches_and_alert svc v tbl arn st).2 = self st.
Proof.
  unfold save_matches_and_alert. run_monad.
  destruct (DynamoMatchTable_new _ _ _) as [[e|t] w1]; simpl; [done|].
  destruct (save_matches _ _ _ _) as [[e|[]] w2]; simpl; [done| |done].
  destruct (publish_alert_to_sns _ _ _ _) as [r w3]. done.
Qed.

(** C9. The identity string is "S3:bucket:key", built by [__init__] from
    the bucket name and the object key it is given; [__enter__], [__exit__]
    and [save_matches_and_alert] leave it as it is, whether they return or
    raise; it is what [__str__] returns and what the summary holds under
    FileInfo, S3Location.  ([summary], [matched_rule_ids] and [filepath]
    only read the record.) *)
Theorem s3_identifier_fixed (svc : Services) (bucket key : string)
    (ya : YaraAnalyzer) (w : World) (st : State) (in_flight : option exc)
    (analyzer_version : Z) (dynamo_table_name sns_topic_arn : string)
    (set_iter : gset string → list string) :
  s3_identifier (__init__ svc bucket key ya w).1 = "S3:" +:+ bucket +:+ ":" +:+ key ∧
  s3_identifier (self (__enter__ svc st).2) = s3_identifier (self st) ∧
  s3_identifier (self (__exit__ in_flight st).2) = s3_identifier (self st) ∧
  s3_identifier (self (save_matches_and_alert svc analyzer_version
                         dynamo_table_name sns_topic_arn st).2)
  = s3_identifier (self st) ∧
  __str__ (self st) = s3_identifier (self st) ∧
  py_path ["FileInfo"; "S3Location"] (summary set_iter (self st))
  = Some (PStr (__str__ (self st))).
Proof.
  split_and!.
  - unfold __init__. by destruct (uuid4 svc w).
  - apply enter_keeps_identity.
  - by rewrite exit_keeps_self.
  - by rewrite save_keeps_self.
  - done.
  - by rewrite summary_spec.
Qed.

Example sample_save_fails :
  let st0 := Sample.state Sample.scanned Sample.world_empty in
  let r := save_matches_and_alert Sample.services_dynamo_down 1 "table" "arn:sns" st0 in
  r.1 = inl (ClientError "ProvisionedThroughputExceeded") ∧
  trace r.2 = [ CallDynamoMatchTable "table"; CallSaveMatches 1 ].
Proof. vm_compute. done. Qed.

Example sample_identifier :
  __str__ (__init__ Sample.services "bucket" "key.exe" Sample.analyzer
             Sample.world_empty).1 = "S3:bucket:key.exe".
Proof. reflexivity. Qed.

(** ** Witnesses for the summary *)

Lemma elements_ok : set_iter_ok elements.
Proof. by intros X. Qed.

Lemma reverse_elements_ok : set_iter_ok (λ X : gset string, reverse (elements X)).
Proof. intros X. apply reverse_Permutation. Qed.

Lemma summary_matched_strings_sorted_witness :
  ∃ l, py_path ["MatchedRules"; "Rule1"; "MatchedStrings"]
         (summary elements Sample.scanned) = Some (PStrList l) ∧
       Sorted String.le l ∧ NoDup l.
Proof.
  destruct (summary_matched_strings_sorted elements Sample.scanned 0 Sample.match1)
    as (l & Hl & Hs & Hn & _).
  - intros X. reflexivity.
  - reflexivity.
  - exists l. split; [exact Hl|]. split; [exact Hs | exact Hn].
Defined.

Lemma summary_deterministic_witness :
  summary elements Sample.scanned
  = summary (λ X : gset string, reverse (elements X)) Sample.scanned'.
Proof.
  apply summary_deterministic.
  - intros X. reflexivity.
  - intros X. apply reverse_Permutation.
  - unfold same_record. simpl. repeat split.
    repeat constructor; vm_compute; reflexivity.
Defined.

(** * Further properties *)

(** ** __init__ *)

Lemma starts_with_slash_binaryalert uuid :
  starts_with_slash ("binaryalert_" +:+ uuid) = false.
Proof. done. Qed.

(** X1. Two records built in the same scratch directory from different
    uuids have different download paths, whatever their buckets and keys;
    building a record reads the world and changes it through [uuid4] only. *)
Theorem init_download_path_unique (svc : Services) (b1 k1 b2 k2 : string)
    (ya1 ya2 : YaraAnalyzer) (w1 w2 : World) :
  gettempdir svc w1 = gettempdir svc w2 →
  (uuid4 svc w1).1 ≠ (uuid4 svc w2).1 →
  download_path (__init__ svc b1 k1 ya1 w1).1
  ≠ download_path (__init__ svc b2 k2 ya2 w2).1 ∧
  (__init__ svc b1 k1 ya1 w1).2 = (uuid4 svc w1).2.
Proof.
  intros Htmp Hne. unfold __init__.
  destruct (uuid4 svc w1) as [u1 w1'], (uuid4 svc w2) as [u2 w2']. simpl in *.
  split; [|done]. rewrite Htmp. unfold os_path_join.
  rewrite !starts_with_slash_binaryalert.
  destruct (bool_decide (gettempdir svc w2 = "") || ends_with_slash (gettempdir svc w2)).
  - intros H. apply (inj (String.app _)) in H. by apply (inj (String.app _)) in H.
  - intros H. apply (inj (String.app _)) in H. apply (inj (String.app _)) in H.
    by apply (inj (String.app _)) in H.
Qed.

Lemma init_download_path_unique_witness :
  download_path (__init__ Outage.services_uuid "b" "k" Sample.analyzer
                   Outage.world_uuid_a).1
  ≠ download_path (__init__ Outage.services_uuid "b" "k" Sample.analyzer
                     Outage.world_uuid_b).1.
Proof.
  apply (init_download_path_unique Outage.services_uuid "b" "k" "b" "k"
           Sample.analyzer Sample.analyzer Outage.world_uuid_a Outage.world_uuid_b).
  - reflexivity.
  - vm_compute. discriminate.
Defined.

(** ** The identity as a key *)

Lemma colon_free_prefix_inj b1 k1 b2 k2 :
  has_colon b1 = false → has_colon b2 = false →
  b1 +:+ ":" +:+ k1 = b2 +:+ ":" +:+ k2 → b1 = b2 ∧ k1 = k2.
Proof.
  revert b2. induction b1 as [|c1 b1 IH]; intros [|c2 b2] H1 H2;
    string_app_norm; intros Heq.
  - by injection Heq as ->.
  - injection Heq as <- _. by simpl in H2.
  - injection Heq as -> _. by simpl in H1.
  - injection Heq as -> Heq. simpl in H1, H2.
    apply orb_false_iff in H1 as [_ H1]. apply orb_false_iff in H2 as [_ H2].
    destruct (IH b2 H1 H2) as [-> ->]; [by string_app_norm|done].
Qed.

(** X2. Records of buckets whose names hold no colon (S3 bucket names do
    not) have the same identity string only if they have the same bucket
    and the same key, so the identity is a key for the object. *)
Theorem s3_identifier_inj (tmp1 u1 b1 k1 tmp2 u2 b2 k2 : string)
    (ya1 ya2 : YaraAnalyzer) :
  has_colon b1 = false → has_colon b2 = false →
  s3_identifier (init_fields tmp1 u1 b1 k1 ya1)
  = s3_identifier (init_fields tmp2 u2 b2 k2 ya2) →
  b1 = b2 ∧ k1 = k2.
Proof.
  intros H1 H2 Heq. simpl in Heq.
  apply (inj (String.app "S3:")) in Heq.
  by apply colon_free_prefix_inj.
Qed.

Lemma s3_identifier_inj_witness :
  "bucket" = "bucket" ∧ "dir:a/key.exe" = "dir:a/key.exe".
Proof.
  apply (s3_identifier_inj "/tmp" "6f1c" "bucket" "dir:a/key.exe"
           "/var/tmp" "a2d7" "bucket" "dir:a/key.exe" Sample.analyzer Sample.analyzer).
  - reflexivity.
  - reflexivity.
  - reflexivity.
Defined.

(** Without the condition on bucket names the identity is ambiguous. *)
Example s3_identifier_collision :
  s3_identifier (init_fields "/tmp" "u" "a:b" "c" Sample.analyzer)
  = s3_identifier (init_fields "/tmp" "u" "a" "b:c" Sample.analyzer).
Proof. reflexivity. Qed.

(** ** _download_from_s3 *)

Lemma download_raises svc st e :
  (fetch_step svc st).1 = inl e →
  _download_from_s3 svc st
  = (inl e, {| self := self st; world := (fetch_step svc st).2;
               trace := trace st ++ download_events (self st) |}).
Proof.
  unfold fetch_step. intros H. unfold _download_from_s3. run_monad.
  destruct (time_time svc (world st)) as [t0 w0]. simpl in *.
  destruct (download_from_s3 _ _ _ _ _) as [r1 w1]. simpl in *. subst r1.
  by rewrite <- !app_assoc.
Qed.

Lemma download_returns svc st lm md :
  (fetch_step svc st).1 = inr (lm, md) →
  _download_from_s3 svc st
  = (inr tt, {| self := downloaded svc st lm md;
                world := (time_time svc (fetch_step svc st).2).2;
                trace := trace st ++ download_events (self st) ++ [CallTime] |}).
Proof.
  unfold downloaded, fetch_step. intros H. unfold _download_from_s3. run_monad.
  destruct (time_time svc (world st)) as [t0 w0]. simpl in *.
  destruct (download_from_s3 _ _ _ _ _) as [r1 w1]. simpl in *. subst r1. simpl.
  destruct (time_time svc w1) as [t1 w2]. simpl.
  by rewrite <- !app_assoc.
Qed.

(** X3. [_download_from_s3] reads the clock, downloads once, and reads the
    clock again only when the download returned.  When the download
    returned, the timestamp and the metadata are the returned ones; when it
    raised, the exception is passed on and the record, its elapsed time
    included, is as before.  Digests, match list, identity and local path
    are not touched either way. *)
Theorem download_from_s3_outcome (svc : Services) (st : State) :
  let r := _download_from_s3 svc st in
  (∀ lm md, (fetch_step svc st).1 = inr (lm, md) →
     r.1 = inr tt ∧
     s3_last_modified (self r.2) = lm ∧ s3_metadata (self r.2) = md ∧
     count (λ ev, bool_decide (ev = CallTime)) (events (_download_from_s3 svc) st) = 2%nat) ∧
  (∀ e, (fetch_step svc st).1 = inl e →
     r.1 = inl e ∧ self r.2 = self st ∧
     count (λ ev, bool_decide (ev = CallTime)) (events (_download_from_s3 svc) st) = 1%nat) ∧
  count is_download (events (_download_from_s3 svc) st) = 1%nat ∧
  computed_sha (self r.2) = computed_sha (self st) ∧
  computed_md5 (self r.2) = computed_md5 (self st) ∧
  yara_matches (self r.2) = yara_matches (self st) ∧
  s3_identifier (self r.2) = s3_identifier (self st) ∧
  download_path (self r.2) = download_path (self st).
Proof.
  intros r. subst r.
  destruct (fetch_step svc st).1 as [e|[lm md]] eqn:H.
  - pose proof (download_raises svc st e H) as Hrun.
    rewrite (events_app _ st _ ltac:(by rewrite Hrun)). rewrite Hrun.
    split_and!; try done. by intros ? [= <-].
  - pose proof (download_returns svc st lm md H) as Hrun.
    rewrite (events_app _ st _ ltac:(by rewrite Hrun)). rewrite Hrun.
    split_and!; try done. by intros ? ? [= <- <-].
Qed.

(** ** __enter__, when every step returns *)

(** X4. When download, hashing and scan all return, [__enter__] returns the
    record itself, holding the returned timestamp, metadata, SHA-256 and MD5
    digests (each under its own field) and match list, with bucket, key,
    local path and analyzer as before; and the summary of that record shows
    the same values under FileInfo and the number of matches. *)
Theorem enter_success (svc : Services) (st : State)
    (set_iter : gset string → list string)
    (lm : string) (md : Dict.t string) (sha md5 : string) (ms : list YaraMatch) :
  (fetch_step svc st).1 = inr (lm, md) →
  (hash_step svc st).1 = inr (sha, md5) →
  (scan_step svc st md).1 = inr ms →
  ∃ b, (__enter__ svc st).1 = inr b ∧ self (__enter__ svc st).2 = b ∧
       s3_last_modified b = lm ∧ s3_metadata b = md ∧
       computed_sha b = Some sha ∧ computed_md5 b = Some md5 ∧
       yara_matches b = ms ∧
       bucket_name b = bucket_name (self st) ∧
       object_key b = object_key (self st) ∧
       download_path b = download_path (self st) ∧
       yara_analyzer b = yara_analyzer (self st) ∧
       py_path ["FileInfo"; "SHA256"] (summary set_iter b) = Some (PStr sha) ∧
       py_path ["FileInfo"; "MD5"] (summary set_iter b) = Some (PStr md5) ∧
       py_path ["FileInfo"; "S3LastModified"] (summary set_iter b) = Some (PStr lm) ∧
       py_path ["FileInfo"; "S3Metadata"] (summary set_iter b) = Some (PStrDict md) ∧
       py_path ["NumMatchedRules"] (summary set_iter b)
       = Some (PInt (Z.of_nat (length ms))).
Proof.
  intros H1 H2 H3. rewrite (enter_returns svc st lm md sha md5 ms H1 H2 H3).
  eexists. split; [done|]. simpl. split_and!; try done;
    by rewrite summary_spec.
Qed.

Lemma enter_success_witness :
  ∃ b, (__enter__ Sample.services (Sample.state Sample.record Sample.world_empty)).1
       = inr b ∧
       computed_sha b = Some "sha" ∧ computed_md5 b = Some "md5" ∧
       yara_matches b = [Sample.match1; Sample.match2].
Proof.
  destruct (enter_success Sample.services
              (Sample.state Sample.record Sample.world_empty) elements
              "2017-08-01" [("filepath", "/usr/bin/evil")] "sha" "md5"
              [Sample.match1; Sample.match2])
    as (b & Hr & _ & _ & _ & Hsha & Hmd5 & Hms & _).
  - reflexivity.
  - reflexivity.
  - reflexivity.
  - exists b. split; [exact Hr|]. split; [exact Hsha|]. split; [exact Hmd5 | exact Hms].
Defined.

(** ** __enter__, call discipline *)

Ltac elem_of_list_cases H :=
  repeat (apply elem_of_cons in H as [->|H]); [..|by apply elem_of_nil in H].

(** X5. Whatever the collaborators do, one run of [__enter__] downloads
    exactly once, hashes at most once and scans at most once (nothing is
    retried); it scans only when it has hashed; the run starts with the
    download; and every call that takes a local path is given the record's
    download path. *)
Theorem enter_call_discipline (svc : Services) (st : State) :
  let evs := events (__enter__ svc) st in
  count is_download evs = 1%nat ∧
  (count is_compute_hashes evs ≤ 1)%nat ∧
  (count is_analyze evs ≤ count is_compute_hashes evs)%nat ∧
  download_events (self st) `prefix_of` evs ∧
  (∀ ev p, ev ∈ evs → event_path ev = Some p → p = download_path (self st)).
Proof.
  intros evs. subst evs.
  destruct (enter_cases svc st)
    as [[e H]|[[e (lm & md & H1 & H2)]|[[e (lm & md & sha & md5 & H1 & H2 & H3)]
       |(lm & md & sha & md5 & ms & H1 & H2 & H3)]]].
  - rewrite (events_app _ st _
               ltac:(by rewrite (enter_fetch_raises svc st e H))).
    split_and!; try done; try (vm_compute; lia); try (by eexists).
    intros ev p Hin. elem_of_list_cases Hin; simpl; congruence.
  - rewrite (events_app _ st _
               ltac:(by rewrite (enter_hash_raises svc st lm md e H1 H2))).
    split_and!; try done; try (vm_compute; lia); try (by eexists).
    intros ev p Hin. elem_of_list_cases Hin; simpl; congruence.
  - rewrite (events_app _ st _
               ltac:(by rewrite (enter_scan_raises svc st lm md sha md5 e H1 H2 H3))).
    split_and!; try done; try (vm_compute; lia); try (by eexists).
    intros ev p Hin. elem_of_list_cases Hin; simpl; congruence.
  - rewrite (events_app _ st _
               ltac:(by rewrite (enter_returns svc st lm md sha md5 ms H1 H2 H3))).
    split_and!; try done; try (vm_compute; lia); try (by eexists).
    intros ev p Hin. elem_of_list_cases Hin; simpl; congruence.
Qed.

(** ** __exit__, in every case *)

(** The four ways [__exit__] can end. *)
Lemma exit_cases in_flight st :
  let p := download_path (self st) in
  (Os.isfile (fs (world st)) p = false ∧
   __exit__ in_flight st
   = (inr tt, {| self := self st; world := world st;
                 trace := trace st ++ [CallIsFile p] |})) ∨
  (Os.isfile (fs (world st)) p = true ∧ p ∈ wr_denied (fs (world st)) ∧
   __exit__ in_flight st
   = (inl (OSError "PermissionError" p),
      {| self := self st; world := world st;
         trace := trace st ++ [CallIsFile p; CallOpenWB p] |})) ∨
  (Os.isfile (fs (world st)) p = true ∧ (p ∉ wr_denied (fs (world st))) ∧
   p ∈ rm_denied (fs (world st)) ∧
   __exit__ in_flight st
   = (inl (OSError "PermissionError" p),
      {| self := self st; world := truncated_world st;
         trace := trace st ++ [CallIsFile p; CallOpenWB p; CallTruncate p;
                               CallClose p; CallRemove p] |})) ∨
  (removable (world st) p ∧
   __exit__ in_flight st
   = (inr tt,
      {| self := self st; world := exit_world st;
         trace := trace st ++ [CallIsFile p; CallOpenWB p; CallTruncate p;
                               CallClose p; CallRemove p] |})).
Proof.
  intros p. subst p.
  destruct (Os.isfile (fs (world st)) (download_path (self st))) eqn:Hfile.
  - destruct (decide (download_path (self st) ∈ wr_denied (fs (world st)))) as [Hw|Hw].
    { right; left. split_and!; try done. by apply exit_open_refused. }
    destruct (decide (download_path (self st) ∈ rm_denied (fs (world st)))) as [Hr|Hr].
    { right; right; left. split_and!; try done. by apply exit_remove_refused. }
    right; right; right. split; [done|]. by apply exit_removes_file.
  - left. split; [done|]. by apply exit_not_a_file.
Qed.

(** X6. Every call [__exit__] makes is an [os] call on the record's own
    download path: the calls are an initial part of the sequence isfile,
    open for writing, truncate, close, remove, and the first is always the
    isfile test, so that nothing is removed that was not opened and closed
    before.  [__exit__] logs nothing, calls no collaborator, and leaves the
    record and the state of the remote services as they were, whether it
    returns or raises. *)
Theorem exit_only_local_calls (in_flight : option exc) (st : State) :
  let p := download_path (self st) in
  let evs := events (__exit__ in_flight) st in
  [CallIsFile p] `prefix_of` evs ∧
  evs `prefix_of` [CallIsFile p; CallOpenWB p; CallTruncate p; CallClose p;
                   CallRemove p] ∧
  (∀ ev, ev ∈ evs → event_path ev = Some p) ∧
  existsb is_log evs = false ∧
  self (__exit__ in_flight st).2 = self st ∧
  remote (world (__exit__ in_flight st).2) = remote (world st).
Proof.
  intros p evs. subst p evs.
  destruct (exit_cases in_flight st)
    as [[_ Hrun]|[(_ & _ & Hrun)|[(_ & _ & _ & Hrun)|[_ Hrun]]]];
    rewrite (events_app _ st _ ltac:(by rewrite Hrun)); rewrite Hrun; simpl;
    (split_and!; try done; try (by eexists);
     intros ev Hin; elem_of_list_cases Hin; done).
Qed.

(** X7. [__exit__] raises exactly when the download path is a regular file
    and opening it for writing or removing it is refused; what it raises is
    the OSError of that call on that path.  When the opening is refused the
    file is left with its content. *)
Theorem exit_raises_iff (in_flight : option exc) (st : State) :
  let p := download_path (self st) in
  ((∃ e, (__exit__ in_flight st).1 = inl e) ↔
   Os.isfile (fs (world st)) p = true ∧
   (p ∈ wr_denied (fs (world st)) ∨ p ∈ rm_denied (fs (world st)))) ∧
  (∀ e, (__exit__ in_flight st).1 = inl e → e = OSError "PermissionError" p) ∧
  (p ∈ wr_denied (fs (world st)) → world (__exit__ in_flight st).2 = world st).
Proof.
  intros p. subst p.
  destruct (exit_cases in_flight st)
    as [[Hf ->]|[(Hf & Hw & ->)|[(Hf & Hw & Hr & ->)|[(Hf & Hw & Hr) ->]]]]; simpl.
  - split_and!.
    + split; [by intros [? ?]|]. intros [? _]. congruence.
    + done.
    + done.
  - split_and!.
    + split; [by auto|]. by eexists.
    + by intros ? [= <-].
    + done.
  - split_and!.
    + split; [by auto|]. by eexists.
    + by intros ? [= <-].
    + done.
  - split_and!.
    + split; [by intros [? ?]|]. intros [_ [?|?]]; done.
    + done.
    + done.
Qed.

(** X8. When the download path is a regular file that may be opened for
    writing, no content is left under the path after [__exit__], also when
    the removal is refused and [__exit__] raises: the path is then absent or
    an empty file. *)
Theorem exit_leaves_no_data (in_flight : option exc) (st : State) :
  Os.isfile (fs (world st)) (download_path (self st)) = true →
  download_path (self st) ∉ wr_denied (fs (world st)) →
  no_data (world (__exit__ in_flight st).2) (download_path (self st)) ∧
  ((__exit__ in_flight st).1 = inr tt →
   path_exists (world (__exit__ in_flight st).2) (download_path (self st)) = false).
Proof.
  intros Hfile Hw.
  destruct (exit_cases in_flight st)
    as [[Hf _]|[(_ & Hw' & _)|[(_ & _ & _ & ->)|[_ ->]]]]; simpl.
  - congruence.
  - done.
  - split; [|done]. right. unfold truncated_world. simpl. apply lookup_insert_eq.
  - split; [|intros _; apply path_exists_exit_world].
    left. unfold exit_world. simpl. apply lookup_delete_eq.
Qed.

Lemma exit_leaves_no_data_witness :
  no_data (world (__exit__ None (Sample.state Sample.record Sample.world_undeletable)).2)
    Sample.path.
Proof.
  apply (exit_leaves_no_data None (Sample.state Sample.record Sample.world_undeletable)).
  - reflexivity.
  - apply (bool_decide_unpack _). vm_compute. exact I.
Defined.

(** ** __enter__ followed by __exit__ *)

Lemma enter_keeps_download_path svc st :
  download_path (self (__enter__ svc st).2) = download_path (self st).
Proof.
  destruct (enter_cases svc st)
    as [[e H]|[[e (lm & md & H1 & H2)]|[[e (lm & md & sha & md5 & H1 & H2 & H3)]
       |(lm & md & sha & md5 & ms & H1 & H2 & H3)]]].
  - by rewrite (enter_fetch_raises svc st e H).
  - by rewrite (enter_hash_raises svc st lm md e H1 H2).
  - by rewrite (enter_scan_raises svc st lm md sha md5 e H1 H2 H3).
  - by rewrite (enter_returns svc st lm md sha md5 ms H1 H2 H3).
Qed.

(** X9. [__exit__] after [__enter__] works on the path the record was built
    with, whether [__enter__] returned or raised: when that path is then
    absent or a removable file, [__exit__] returns normally, the path does
    not exist afterwards, and the record keeps everything [__enter__] left
    in it, so that its summary and rule ids are unchanged. *)
Theorem enter_then_exit (svc : Services) (st : State) (in_flight : option exc)
    (set_iter : gset string → list string) :
  let st1 := (__enter__ svc st).2 in
  let r := __exit__ in_flight st1 in
  path_exists (world st1) (download_path (self st)) = false ∨
  removable (world st1) (download_path (self st)) →
  r.1 = inr tt ∧
  path_exists (world r.2) (download_path (self st)) = false ∧
  self r.2 = self st1 ∧
  summary set_iter (self r.2) = summary set_iter (self st1) ∧
  matched_rule_ids (self r.2) = matched_rule_ids (self st1).
Proof.
  intros st1 r. subst r.
  pose proof (enter_keeps_download_path svc st) as Hp. fold st1 in Hp.
  rewrite <- Hp. intros Hcase.
  destruct (exit_cases in_flight st1)
    as [[Hf ->]|[(Hf & Hw & _)|[(Hf & Hw & Hr & _)|[_ ->]]]]; simpl.
  - split_and!; try done. destruct Hcase as [?|[? _]]; [done|congruence].
  - destruct Hcase as [Ha|(_ & ? & _)]; [|done].
    apply isfile_absent in Ha. congruence.
  - destruct Hcase as [Ha|(_ & _ & ?)]; [|done].
    apply isfile_absent in Ha. congruence.
  - split_and!; try done. apply path_exists_exit_world.
Qed.

Lemma enter_then_exit_witness :
  path_exists
    (world (__exit__ None
              (__enter__ Sample.services
                 (Sample.state Sample.record Sample.world_empty)).2).2)
    Sample.path = false.
Proof.
  apply (enter_then_exit Sample.services
           (Sample.state Sample.record Sample.world_empty) None elements).
  right. split_and!; [reflexivity | |]; apply (bool_decide_unpack _); vm_compute; exact I.
Defined.

(** ** save_matches_and_alert, call discipline *)

Section SaveDiscipline.
Variable svc : Services.
Variables (analyzer_version : Z) (dynamo_table_name sns_topic_arn : string).

Local Abbreviation run := (save_matches_and_alert svc analyzer_version
                             dynamo_table_name sns_topic_arn).

Local Abbreviation full_run :=
  [ CallDynamoMatchTable dynamo_table_name; CallSaveMatches analyzer_version;
    LogInfo "Publishing an SNS alert"; CallPublish sns_topic_arn ].

(** X10. One run of [save_matches_and_alert] makes its calls in the order
    table object, save, publish and stops at the first that raises: when
    making the table object raises, that is the only call; when the save
    raises or returns false, the table object and the save are the only
    calls; when the save returns true, the publishing follows and nothing
    follows the publishing.  So the table object is made exactly once, the
    save is called at most once and the publishing at most once, and
    nothing is retried. *)
Theorem save_call_discipline (st : State) :
  events run st `prefix_of` full_run ∧
  count is_table (events run st) = 1%nat ∧
  (count is_save (events run st) ≤ 1)%nat ∧
  (count is_publish (events run st) ≤ count is_save (events run st))%nat ∧
  (∀ e w1,
     DynamoMatchTable_new svc dynamo_table_name (world st) = (inl e, w1) →
     events run st = [CallDynamoMatchTable dynamo_table_name] ∧
     (run st).1 = inl e) ∧
  (∀ t w1 e w2,
     DynamoMatchTable_new svc dynamo_table_name (world st) = (inr t, w1) →
     save_matches t (self st) analyzer_version w1 = (inl e, w2) →
     events run st = [CallDynamoMatchTable dynamo_table_name;
                      CallSaveMatches analyzer_version] ∧
     (run st).1 = inl e) ∧
  (∀ t w1 w2,
     DynamoMatchTable_new svc dynamo_table_name (world st) = (inr t, w1) →
     save_matches t (self st) analyzer_version w1 = (inr false, w2) →
     events run st = [CallDynamoMatchTable dynamo_table_name;
                      CallSaveMatches analyzer_version] ∧
     (run st).1 = inr tt) ∧
  (∀ t w1 w2,
     DynamoMatchTable_new svc dynamo_table_name (world st) = (inr t, w1) →
     save_matches t (self st) analyzer_version w1 = (inr true, w2) →
     events run st = full_run).
Proof.
  assert (Hcount :
    events run st `prefix_of` full_run ∧
    count is_table (events run st) = 1%nat ∧
    (count is_save (events run st) ≤ 1)%nat ∧
    (count is_publish (events run st) ≤ count is_save (events run st))%nat).
  { destruct (DynamoMatchTable_new svc dynamo_table_name (world st))
      as [[e|t] w1] eqn:Ht.
    { rewrite (events_app run st _
                 ltac:(by rewrite (save_table_raises _ _ _ _ st e w1 Ht))).
      split_and!; try done; try (vm_compute; lia). by eexists. }
    destruct (save_matches t (self st) analyzer_version w1) as [[e|[]] w2] eqn:Hs.
    - rewrite (events_app run st _
                 ltac:(by rewrite (save_raises _ _ _ _ st t w1 e w2 Ht Hs))).
      split_and!; try done; try (vm_compute; lia). by eexists.
    - rewrite (events_app run st _
                 ltac:(by rewrite (save_alert _ _ _ _ st t w1 w2 Ht Hs))).
      split_and!; try done; try (vm_compute; lia).
    - rewrite (events_app run st _
                 ltac:(by rewrite (save_no_alert _ _ _ _ st t w1 w2 Ht Hs))).
      split_and!; try done; try (vm_compute; lia). by eexists. }
  destruct Hcount as (H1 & H2 & H3 & H4).
  split_and!; [done..| | | |].
  - intros e w1 Ht.
    pose proof (save_table_raises svc analyzer_version dynamo_table_name
                  sns_topic_arn st e w1 Ht) as Hrun.
    split; [apply events_app|]; by rewrite Hrun.
  - intros t w1 e w2 Ht Hs.
    pose proof (save_raises svc analyzer_version dynamo_table_name
                  sns_topic_arn st t w1 e w2 Ht Hs) as Hrun.
    split; [apply events_app|]; by rewrite Hrun.
  - intros t w1 w2 Ht Hs.
    pose proof (save_no_alert svc analyzer_version dynamo_table_name
                  sns_topic_arn st t w1 w2 Ht Hs) as Hrun.
    split; [apply events_app|]; by rewrite Hrun.
  - intros t w1 w2 Ht Hs.
    pose proof (save_alert svc analyzer_version dynamo_table_name
                  sns_topic_arn st t w1 w2 Ht Hs) as Hrun.
    apply events_app. by rewrite Hrun.
Qed.

(** X11. When the save asked for an alert, the outcome of
    [save_matches_and_alert] is the outcome of the publishing, which is
    given the record as it is and the world the save left: an exception of
    the publishing is passed on, and the world is then as the publishing
    left it, with nothing done to take the save back. *)
Theorem save_then_publish (st : State) (t : DynamoMatchTable) (w1 w2 : World) :
  DynamoMatchTable_new svc dynamo_table_name (world st) = (inr t, w1) →
  save_matches t (self st) analyzer_version w1 = (inr true, w2) →
  (run st).1 = (publish_alert_to_sns svc (self st) sns_topic_arn w2).1 ∧
  world (run st).2 = (publish_alert_to_sns svc (self st) sns_topic_arn w2).2 ∧
  self (run st).2 = self st ∧
  events run st = full_run.
Proof.
  intros Ht Hs.
  pose proof (save_alert svc analyzer_version dynamo_table_name sns_topic_arn
                st t w1 w2 Ht Hs) as Hrun.
  rewrite (events_app run st full_run) by by rewrite Hrun.
  by rewrite Hrun.
Qed.
End SaveDiscipline.

Lemma save_then_publish_witness :
  (save_matches_and_alert Outage.services_sns_down 1 "table" "arn:sns"
     (Sample.state Sample.scanned Sample.world_empty)).1
  = inl (ClientError "AuthorizationError") ∧
  world (save_matches_and_alert Outage.services_sns_down 1 "table" "arn:sns"
           (Sample.state Sample.scanned Sample.world_empty)).2
  = Sample.record_alert "S3:bucket:key.exe" Sample.world_empty.
Proof.
  destruct (save_then_publish Outage.services_sns_down 1 "table" "arn:sns"
              (Sample.state Sample.scanned Sample.world_empty) Sample.table
              Sample.world_empty
              (Sample.record_alert "S3:bucket:key.exe" Sample.world_empty))
    as (Hr & Hw & _).
  - reflexivity.
  - reflexivity.
  - split; [exact Hr | exact Hw].
Defined.

(** ** summary and matched_rule_ids together *)

(** X12. The rule blocks of the summary and the rule ids agree: the
    RuleFile and RuleName of every block, joined by a colon, are a rule id,
    and every rule id is obtained from some block.  The rule ids are never
    more than NumMatchedRules, and there are none exactly when
    NumMatchedRules is 0. *)
Theorem summary_rules_are_rule_ids
    (set_iter : gset string → list string) (self : BinaryInfo) :
  let s := summary set_iter self in
  (∀ (i : nat) m, yara_matches self !! i = Some m →
     ∃ f r,
       py_path ["MatchedRules"; rule_label (Z.of_nat (S i)); "RuleFile"] s
       = Some (PStr f) ∧
       py_path ["MatchedRules"; rule_label (Z.of_nat (S i)); "RuleName"] s
       = Some (PStr r) ∧
       f +:+ ":" +:+ r ∈ matched_rule_ids self) ∧
  (∀ id, id ∈ matched_rule_ids self →
     ∃ (i : nat) f r,
       (i < length (yara_matches self))%nat ∧
       py_path ["MatchedRules"; rule_label (Z.of_nat (S i)); "RuleFile"] s
       = Some (PStr f) ∧
       py_path ["MatchedRules"; rule_label (Z.of_nat (S i)); "RuleName"] s
       = Some (PStr r) ∧
       id = f +:+ ":" +:+ r) ∧
  (size (matched_rule_ids self) ≤ length (yara_matches self))%nat ∧
  (matched_rule_ids self = ∅ ↔ py_path ["NumMatchedRules"] s = Some (PInt 0)).
Proof.
  intros s. subst s. rewrite summary_spec.
  assert (Hblock : ∀ (i : nat) m, yara_matches self !! i = Some m →
            py_path ["MatchedRules"; rule_label (Z.of_nat (S i)); "RuleFile"]
              (PDict [ ("FileInfo", file_info self);
                       ("MatchedRules",
                        PDict (labelled_block set_iter <$> enumerate 1 (yara_matches self)));
                       ("NumMatchedRules", PInt (Z.of_nat (length (yara_matches self)))) ])
            = Some (PStr (namespace m)) ∧
            py_path ["MatchedRules"; rule_label (Z.of_nat (S i)); "RuleName"]
              (PDict [ ("FileInfo", file_info self);
                       ("MatchedRules",
                        PDict (labelled_block set_iter <$> enumerate 1 (yara_matches self)));
                       ("NumMatchedRules", PInt (Z.of_nat (length (yara_matches self)))) ])
            = Some (PStr (rule m))).
  { intros i m Hm. simpl. by rewrite (matched_rules_get set_iter _ i m Hm). }
  split_and!.
  - intros i m Hm. destruct (Hblock i m Hm) as [Hf Hr].
    exists (namespace m), (rule m). split_and!; [done..|].
    unfold matched_rule_ids. apply elem_of_list_to_set, list_elem_of_fmap.
    exists m. split; [done|]. apply list_elem_of_lookup. by exists i.
  - intros id Hid. unfold matched_rule_ids in Hid.
    apply elem_of_list_to_set, list_elem_of_fmap in Hid as (m & -> & Hm).
    apply list_elem_of_lookup in Hm as [i Hm].
    destruct (Hblock i m Hm) as [Hf Hr].
    exists i, (namespace m), (rule m). split_and!; try done.
    by apply lookup_lt_Some in Hm.
  - unfold matched_rule_ids. etrans; [apply size_list_to_set_le|].
    by rewrite length_fmap.
  - unfold matched_rule_ids. simpl.
    destruct (yara_matches self) as [|m ms]; simpl.
    + done.
    + split.
      * intros He. exfalso. apply (not_elem_of_empty (C:=gset string) (rule_id m)).
        rewrite <- He. apply elem_of_union_l, elem_of_singleton. done.
      * by intros [= ?].
Qed.

(** X13. The rule ids depend on the (namespace, rule name) pairs of the
    match list only: two records whose match lists hold the same pairs, in
    whatever order, how often, and with whatever strings, tags and metadata,
    have the same rule ids. *)
Theorem matched_rule_ids_pairs_only (b1 b2 : BinaryInfo) :
  (∀ p, p ∈ rule_pair <$> yara_matches b1 ↔ p ∈ rule_pair <$> yara_matches b2) →
  matched_rule_ids b1 = matched_rule_ids b2.
Proof.
  intros Hp. unfold matched_rule_ids. apply set_eq. intros id.
  rewrite !elem_of_list_to_set, !list_elem_of_fmap.
  split; intros (m & -> & Hm).
  - assert (rule_pair m ∈ rule_pair <$> yara_matches b2) as Hin.
    { apply Hp, list_elem_of_fmap. by exists m. }
    apply list_elem_of_fmap in Hin as (m' & Heq & Hm').
    exists m'. split; [|done]. rewrite !rule_id_pair. by rewrite Heq.
  - assert (rule_pair m ∈ rule_pair <$> yara_matches b1) as Hin.
    { apply Hp, list_elem_of_fmap. by exists m. }
    apply list_elem_of_fmap in Hin as (m' & Heq & Hm').
    exists m'. split; [|done]. rewrite !rule_id_pair. by rewrite Heq.
Qed.

Lemma matched_rule_ids_pairs_only_witness :
  matched_rule_ids (set_yara_matches [Sample.match2; Sample.match1'; Sample.match1]
                      Sample.record)
  = matched_rule_ids Sample.scanned.
Proof.
  apply matched_rule_ids_pairs_only. intros p. simpl.
  rewrite !elem_of_cons. rewrite elem_of_nil.
  change (rule_pair Sample.match1') with (rule_pair Sample.match1).
  tauto.
Defined.

(** ** MatchedStrings, bounds *)

Lemma remove_dups_length_le {A} `{EqDecision A} (l : list A) :
  (length (remove_dups l) ≤ length l)%nat.
Proof. induction l as [|x l IH]; simpl; [done|]. case_decide; simpl; lia. Qed.

Lemma StronglySorted_lookup {A} (R : relation A) l i j x y :
  StronglySorted R l → (i < j)%nat → l !! i = Some x → l !! j = Some y → R x y.
Proof.
  intros Hs. revert i j. induction Hs as [|z l Hs IH Hz]; intros i j Hij Hi Hj.
  - done.
  - destruct j as [|j]; [lia|]. destruct i as [|i]; simpl in *.
    + injection Hi as ->. rewrite Forall_forall in Hz. apply Hz.
      apply list_elem_of_lookup. by exists j.
    + apply (IH i j); [lia|done..].
Qed.

(** X14. The MatchedStrings list of a match is never longer than the list
    of string hits of the match, it is empty exactly when there are no
    hits, and it is strictly ascending: of two entries the earlier one is
    below the later one and differs from it. *)
Theorem matched_strings_bounds (set_iter : gset string → list string) (m : YaraMatch) :
  set_iter_ok set_iter →
  (length (matched_strings set_iter m) ≤ length (strings m))%nat ∧
  (matched_strings set_iter m = [] ↔ strings m = []) ∧
  ∀ (i j : nat) s t,
    (i < j)%nat →
    matched_strings set_iter m !! i = Some s →
    matched_strings set_iter m !! j = Some t →
    String.le s t ∧ s ≠ t.
Proof.
  intros Hiter. split_and!.
  - rewrite matched_strings_canonical by done.
    rewrite (Permutation_length (sorted_Permutation _)).
    etrans; [apply remove_dups_length_le|]. by rewrite length_fmap.
  - split.
    + intros Hnil. destruct (strings m) as [|t ts] eqn:Hs; [done|].
      exfalso. assert (item1 t ∈ matched_strings set_iter m) as Hin.
      { apply matched_strings_elem; [done|]. rewrite Hs. simpl. left. }
      rewrite Hnil in Hin. by apply elem_of_nil in Hin.
    + intros Hs. rewrite matched_strings_canonical by done. by rewrite Hs.
  - intros i j s t Hij Hi Hj. split.
    + apply (StronglySorted_lookup String.le (matched_strings set_iter m) i j);
        [|done..].
      apply Sorted_StronglySorted; [apply _|apply sorted_Sorted].
    + intros ->.
      pose proof (NoDup_lookup _ i j t (matched_strings_NoDup set_iter Hiter m) Hi Hj).
      lia.
Qed.

Lemma matched_strings_bounds_witness :
  (length (matched_strings elements Sample.match1) ≤ length (strings Sample.match1))%nat.
Proof.
  apply (matched_strings_bounds elements Sample.match1).
  intros X. reflexivity.
Defined.

(** ** summary before __enter__ *)

(** X15. The summary of a record on which [__enter__] has not run is well
    formed: both digests are None, timestamp and metadata are empty, the
    location is the identity, there are no rule blocks and NumMatchedRules
    is 0; and such a record has no rule ids and an empty path hint. *)
Theorem summary_before_enter (svc : Services) (bucket key : string)
    (ya : YaraAnalyzer) (w : World) (set_iter : gset string → list string) :
  let b := (__init__ svc bucket key ya w).1 in
  summary set_iter b
  = PDict [ ("FileInfo",
             PDict [ ("MD5", PNone); ("S3LastModified", PStr "");
                     ("S3Location", PStr ("S3:" +:+ bucket +:+ ":" +:+ key));
                     ("S3Metadata", PDict []); ("SHA256", PNone) ]);
            ("MatchedRules", PDict []);
            ("NumMatchedRules", PInt 0) ] ∧
  matched_rule_ids b = ∅ ∧
  filepath b = "".
Proof.
  intros b. subst b. unfold __init__. by destruct (uuid4 svc w).
Qed.

(** ** __enter__ on a record that was used before *)

Lemma fetch_step_same_inputs svc st1 st2 :
  same_inputs (self st1) (self st2) → world st1 = world st2 →
  fetch_step svc st1 = fetch_step svc st2.
Proof.
  intros (Hb & Hk & _ & Hp & _) Hw. unfold fetch_step. by rewrite Hb, Hk, Hp, Hw.
Qed.

Lemma hash_step_same_inputs svc st1 st2 :
  same_inputs (self st1) (self st2) → world st1 = world st2 →
  hash_step svc st1 = hash_step svc st2.
Proof.
  intros Hs Hw. unfold hash_step.
  rewrite (fetch_step_same_inputs svc st1 st2 Hs Hw).
  destruct Hs as (_ & _ & _ & Hp & _). by rewrite Hp.
Qed.

Lemma scan_step_same_inputs svc st1 st2 md :
  same_inputs (self st1) (self st2) → world st1 = world st2 →
  scan_step svc st1 md = scan_step svc st2 md.
Proof.
  intros Hs Hw. unfold scan_step.
  rewrite (hash_step_same_inputs svc st1 st2 Hs Hw).
  destruct Hs as (_ & _ & _ & Hp & Ha). by rewrite Hp, Ha.
Qed.

(** X16. What [__enter__] does is independent of what the record held
    before: run in the same world on two records of the same object, it
    ends the same way (the same exception, or the same returned record) and
    leaves the same world; when it returns, the record agrees with the
    returned one in every field, so that results of an earlier run are
    replaced, not kept or added to. *)
Theorem enter_overwrites (svc : Services) (st1 st2 : State) :
  same_inputs (self st1) (self st2) →
  world st1 = world st2 →
  (__enter__ svc st2).1 = (__enter__ svc st1).1 ∧
  world (__enter__ svc st2).2 = world (__enter__ svc st1).2 ∧
  ∀ b, (__enter__ svc st1).1 = inr b → self (__enter__ svc st2).2 = b.
Proof.
  intros Hs Hw.
  pose proof (fetch_step_same_inputs svc st1 st2 Hs Hw) as Hf.
  pose proof (hash_step_same_inputs svc st1 st2 Hs Hw) as Hh.
  destruct (enter_cases svc st1)
    as [[e H]|[[e (lm & md & H1 & H2)]|[[e (lm & md & sha & md5 & H1 & H2 & H3)]
       |(lm & md & sha & md5 & ms & H1 & H2 & H3)]]].
  - simpl in H. rewrite (enter_fetch_raises svc st1 e H). rewrite Hf in H.
    rewrite (enter_fetch_raises svc st2 e H). simpl. by rewrite Hf.
  - rewrite (enter_hash_raises svc st1 lm md e H1 H2).
    rewrite Hf in H1. rewrite Hh in H2.
    rewrite (enter_hash_raises svc st2 lm md e H1 H2). simpl. by rewrite Hh.
  - pose proof (scan_step_same_inputs svc st1 st2 md Hs Hw) as Hsc.
    rewrite (enter_scan_raises svc st1 lm md sha md5 e H1 H2 H3).
    rewrite Hf in H1. rewrite Hh in H2. rewrite Hsc in H3.
    rewrite (enter_scan_raises svc st2 lm md sha md5 e H1 H2 H3). simpl.
    by rewrite Hsc.
  - pose proof (scan_step_same_inputs svc st1 st2 md Hs Hw) as Hsc.
    rewrite (enter_returns svc st1 lm md sha md5 ms H1 H2 H3).
    rewrite Hf in H1. rewrite Hh in H2. rewrite Hsc in H3.
    rewrite (enter_returns svc st2 lm md sha md5 ms H1 H2 H3). simpl.
    rewrite Hsc.
    assert (set_yara_matches ms (set_hashes sha md5 (downloaded svc st1 lm md))
            = set_yara_matches ms (set_hashes sha md5 (downloaded svc st2 lm md)))
      as ->; [|by split_and!; [..|intros ? [= <-]]].
    unfold set_yara_matches, set_hashes, downloaded, set_download_time_ms,
      set_download. simpl.
    rewrite Hf, Hw. destruct Hs as (-> & -> & -> & -> & ->). done.
Qed.

Lemma enter_overwrites_witness :
  (__enter__ Sample.services (Sample.state Stale.record Sample.world_empty)).1
  = (__enter__ Sample.services (Sample.state Sample.record Sample.world_empty)).1.
Proof.
  apply (enter_overwrites Sample.services
           (Sample.state Sample.record Sample.world_empty)
           (Sample.state Stale.record Sample.world_empty)).
  - repeat split.
  - reflexivity.
Defined.
